(** * DashVentanas: the maintenance Gantt dashboard of [app.py]

    A shallow embedding of the script: the values that travel between the
    table, the dropdown and the callback; the pandas operations the script
    calls; the plotly express timeline constructor; the module-level start-up
    code and the [update_gantt_chart] callback, both written in a small
    state-and-exception monad over a store of frame objects. *)

From Stdlib Require Import List String Ascii ZArith Bool Lia Arith.
From Stdlib Require Import Sorting.Sorted Sorting.Permutation.
Import ListNotations.

Local Open Scope string_scope.
Local Open Scope list_scope.

(* ================================================================== *)
(** ** Python values, truth test and exceptions *)

Module Py.

(** What a table cell or a dropdown value can be.  [Null] is Python's
    [None] when it is a callback argument and a missing entry (NaN, NaT)
    when it is a cell of a frame.  Floating point cells are outside the
    model: a numeric column is a column of integers. *)
Inductive value : Type :=
| Null
| Str (s : string)
| Int (n : Z)
| Timestamp (t : Z).

(** The exceptions the script can meet. *)
Inductive exception : Type :=
| FileNotFoundError
| KeyError (label : string)
| ValueError
| NameError.

Inductive result (A : Type) : Type :=
| Ok (a : A)
| Raise (e : exception).
Arguments Ok {A} a.
Arguments Raise {A} e.

Definition rbind {A B} (r : result A) (f : A -> result B) : result B :=
  match r with
  | Ok a => f a
  | Raise e => Raise e
  end.

(** [bool(v)]: the test behind [if not selected_equipment]. *)
Definition truthy (v : value) : bool :=
  match v with
  | Null => false
  | Str s => negb (s =? "")
  | Int n => negb (n =? 0)%Z
  | Timestamp _ => true
  end.

(** Elementwise [==] of a column against a scalar: exact on strings and
    on numbers, never true on a missing cell or across kinds. *)
Definition value_eqb (a b : value) : bool :=
  match a, b with
  | Str s, Str t => (s =? t)
  | Int n, Int m => (n =? m)%Z
  | Timestamp n, Timestamp m => (n =? m)%Z
  | _, _ => false
  end.

Definition value_eq_dec (a b : value) : {a = b} + {a <> b}.
Proof.
  decide equality; try apply Z.eq_dec; apply string_dec.
Defined.

Definition is_null (v : value) : bool :=
  match v with Null => true | _ => false end.

(** Sort rank of a kind of value: numbers, then timestamps, then strings,
    and missing values last ([na_position='last']). *)
Definition rank (v : value) : nat :=
  match v with
  | Int _ => 0
  | Timestamp _ => 1
  | Str _ => 2
  | Null => 3
  end.

(** The order [sort_values] puts cells in: numbers by magnitude, strings
    by code point (a string is its UTF-8 bytes, whose order is that of the
    code points), missing values after everything else and equal to one
    another.  A column read from a file holds one kind of value besides
    missing ones, so the order between kinds only fixes where the missing
    values go. *)
Definition value_compare (a b : value) : comparison :=
  match a, b with
  | Int n, Int m => (n ?= m)%Z
  | Timestamp n, Timestamp m => (n ?= m)%Z
  | Str s, Str t => String.compare s t
  | _, _ => Nat.compare (rank a) (rank b)
  end.

End Py.
Import Py.

(* ================================================================== *)
(** ** The pandas operations the script uses *)

Module Pandas.

(** A row: its index label and its cells, one per column. *)
Definition Row : Type := (nat * list value)%type.

Record DataFrame : Type := mkDataFrame {
  columns : list string;
  rows : list Row
}.

(** The cells of the rows, without the index labels. *)
Definition data (d : DataFrame) : list (list value) := map snd (rows d).

(** [pd.DataFrame()] *)
Definition empty_frame : DataFrame := mkDataFrame [] [].

(** [pd.DataFrame(columns=labels)] *)
Definition frame_of_columns (labels : list string) : DataFrame :=
  mkDataFrame labels [].

Fixpoint position (label : string) (labels : list string) : option nat :=
  match labels with
  | [] => None
  | l :: rest =>
      if l =? label then Some 0
      else option_map S (position label rest)
  end.

Definition cell_at (p : nat) (cells : list value) : value := nth p cells Null.

(** [df[label]]: the column as a sequence, [KeyError] when the frame has
    no such column. *)
Definition getitem (d : DataFrame) (label : string) : result (list value) :=
  match position label (columns d) with
  | Some p => Ok (map (fun r => cell_at p (snd r)) (rows d))
  | None => Raise (KeyError label)
  end.

Fixpoint replace_at {A} (p : nat) (a : A) (l : list A) : list A :=
  match l, p with
  | [], _ => []
  | _ :: rest, O => a :: rest
  | x :: rest, S p' => x :: replace_at p' a rest
  end.

Fixpoint zip_rows (f : Row -> value -> Row) (rs : list Row)
         (vs : list value) : list Row :=
  match rs, vs with
  | r :: rs', v :: vs' => f r v :: zip_rows f rs' vs'
  | _, _ => rs
  end.

(** [df[label] = series] for a series made from the frame itself: the
    column is replaced when it exists and appended otherwise. *)
Definition setitem (d : DataFrame) (label : string) (vs : list value)
  : DataFrame :=
  match position label (columns d) with
  | Some p =>
      mkDataFrame (columns d)
        (zip_rows (fun r v => (fst r, replace_at p v (snd r))) (rows d) vs)
  | None =>
      mkDataFrame (columns d ++ [label])
        (zip_rows (fun r v => (fst r, snd r ++ [v])) (rows d) vs)
  end.

(** [series == scalar] *)
Definition series_eq (col : list value) (v : value) : list bool :=
  map (fun c => value_eqb c v) col.

Fixpoint select {A} (l : list A) (mask : list bool) : list A :=
  match l, mask with
  | x :: l', b :: mask' =>
      if b then x :: select l' mask' else select l' mask'
  | _, _ => []
  end.

(** [df[mask]] for a boolean mask made from the frame itself. *)
Definition getitem_mask (d : DataFrame) (mask : list bool) : DataFrame :=
  mkDataFrame (columns d) (select (rows d) mask).

(** [series.dropna()] *)
Definition dropna (col : list value) : list value :=
  filter (fun c => negb (is_null c)) col.

Definition mem (v : value) (l : list value) : bool :=
  if in_dec value_eq_dec v l then true else false.

(** [series.unique()]: one left-to-right pass that keeps a value the
    first time it is met. *)
Fixpoint unique_from (seen : list value) (col : list value) : list value :=
  match col with
  | [] => []
  | c :: rest =>
      if mem c seen then unique_from seen rest
      else c :: unique_from (c :: seen) rest
  end.

Definition unique (col : list value) : list value := unique_from [] col.

Fixpoint assoc (k : string) (m : list (string * string)) : option string :=
  match m with
  | [] => None
  | (k', v) :: rest => if k' =? k then Some v else assoc k rest
  end.

Definition rename_label (m : list (string * string)) (l : string) : string :=
  match assoc l m with
  | Some l' => l'
  | None => l
  end.

(** [df.rename(columns=m)]: only the labels change; a label the mapping
    does not mention is kept. *)
Definition rename (d : DataFrame) (m : list (string * string)) : DataFrame :=
  mkDataFrame (map (rename_label m) (columns d)) (rows d).

(** Lexicographic comparison of two rows on the cells at positions [ps]. *)
Fixpoint lex_leb (ps : list nat) (a b : list value) : bool :=
  match ps with
  | [] => true
  | p :: ps' =>
      match value_compare (cell_at p a) (cell_at p b) with
      | Lt => true
      | Gt => false
      | Eq => lex_leb ps' a b
      end
  end.

Section StableSort.
Context {A : Type} (leb : A -> A -> bool).

Fixpoint insert (x : A) (l : list A) : list A :=
  match l with
  | [] => [x]
  | y :: l' => if leb x y then x :: y :: l' else y :: insert x l'
  end.

(** A stable sort: an element goes in front of the first later element
    it does not exceed, so it stays in front of its equals. *)
Fixpoint stable_sort (l : list A) : list A :=
  match l with
  | [] => []
  | x :: l' => insert x (stable_sort l')
  end.
End StableSort.

Definition has_label (l : string) (labels : list string) : bool :=
  existsb (String.eqb l) labels.

Fixpoint distinct (labels : list string) : bool :=
  match labels with
  | [] => true
  | l :: rest => negb (has_label l rest) && distinct rest
  end.

Definition count_label (label : string) (labels : list string) : nat :=
  List.length (filter (fun l => l =? label) labels).

(** The position of a sort key: [KeyError] for an unknown label and
    [ValueError] for a label that names more than one column. *)
Definition key_position (labels : list string) (label : string)
  : result nat :=
  match position label labels with
  | None => Raise (KeyError label)
  | Some p =>
      if Nat.ltb 1 (count_label label labels) then Raise ValueError
      else Ok p
  end.

Fixpoint key_positions (labels : list string) (by_ : list string)
  : result (list nat) :=
  match by_ with
  | [] => Ok []
  | b :: rest =>
      rbind (key_position labels b) (fun p =>
      rbind (key_positions labels rest) (fun ps => Ok (p :: ps)))
  end.

(** [df.sort_values(by=by_)] with several keys: a stable lexicographic
    sort, ascending, missing values last in every key.  The result of a
    stable sort is fixed by the input order and the key order (see
    [stable_sort_unique] below), so the sorting algorithm itself does not
    show. *)
Definition sort_values (d : DataFrame) (by_ : list string)
  : result DataFrame :=
  rbind (key_positions (columns d) by_) (fun ps =>
  Ok (mkDataFrame (columns d)
        (stable_sort (fun a b => lex_leb ps (snd a) (snd b)) (rows d)))).

(** [df.reset_index(drop=True)]: the rows are labelled 0, 1, 2, ... *)
Definition reset_index_drop (d : DataFrame) : DataFrame :=
  mkDataFrame (columns d)
    (combine (seq 0 (List.length (rows d))) (map snd (rows d))).

Fixpoint label_positions (labels : list string) (wanted : list string)
  : result (list nat) :=
  match wanted with
  | [] => Ok []
  | l :: rest =>
      match position l labels with
      | None => Raise (KeyError l)
      | Some p =>
          rbind (label_positions labels rest) (fun ps => Ok (p :: ps))
      end
  end.

(** [df[[l1, l2, ...]]], as the rows of the selected cells. *)
Definition getitem_list (d : DataFrame) (labels : list string)
  : result (list (list value)) :=
  rbind (label_positions (columns d) labels) (fun ps =>
  Ok (map (fun r => map (fun p => cell_at p (snd r)) ps) (rows d))).

Section ToDatetime.
(** The date-time parser of the library, on one text cell: [None] for a
    text it cannot read.  Timestamps count in the unit of the parser. *)
Variable parse_datetime : string -> option Z.

(** One cell: a missing cell stays missing, a text is parsed, and an
    integer is a count of time units since 1970 (the library counts
    nanoseconds, so the unit of the parser is the nanosecond wherever a
    column holds integers). *)
Definition to_datetime_value (v : value) : result value :=
  match v with
  | Null => Ok Null
  | Timestamp t => Ok (Timestamp t)
  | Int n => Ok (Timestamp n)
  | Str s =>
      match parse_datetime s with
      | Some t => Ok (Timestamp t)
      | None => Raise ValueError
      end
  end.

(** [pd.to_datetime(series)] with the default [errors='raise']: one
    cell that cannot be read fails the whole conversion.  The library
    also settles on one format for the column and fails on a cell that is
    readable but written in another one; the model reads each cell alone,
    so it is exact where it fails and, where it succeeds, is the
    conversion of a column written in one format.  What is proved of a
    file that loads takes the success of the two conversions as its
    premise. *)
Fixpoint to_datetime (col : list value) : result (list value) :=
  match col with
  | [] => Ok []
  | c :: rest =>
      rbind (to_datetime_value c) (fun t =>
      rbind (to_datetime rest) (fun ts => Ok (t :: ts)))
  end.
End ToDatetime.

End Pandas.
Import Pandas.

(* ================================================================== *)
(** ** The timeline constructor of plotly express *)

Module Plotly.

(** One bar of the timeline: where it starts on the time axis and how
    long it is, its category on the other axis and the text written in
    it.  The library keeps the length (end minus start), not the end. *)
Record Bar : Type := mkBar {
  bar_start : value;
  bar_length : value;
  bar_y : value;
  bar_text : value
}.

(** One trace: the bars of one colour group, or all bars when the colour
    is continuous.  A [marker_color] of [Some c] is the colour the
    dictionary gives the group; [None] stands for a colour that is not
    taken from the dictionary: one of the default colour sequence of the
    library for a group the dictionary does not know, and the colour
    scale for a continuous colour. *)
Record Trace : Type := mkTrace {
  trace_name : value;
  marker_color : option string;
  bars : list Bar;
  textposition : option string;
  hovertemplate : option string;
  customdata : option (list (list value))
}.

(** The title is kept as the pieces of the formatted string. *)
Record Layout : Type := mkLayout {
  title : option (list value);
  categoryorder : option string;
  hovermode : option string;
  xaxis_title : option string;
  yaxis_title : option string;
  legend_title : option string;
  margin : option (Z * Z * Z * Z)
}.

Record Figure : Type := mkFigure {
  traces : list Trace;
  layout : Layout
}.

Record TimelineArgs : Type := mkTimelineArgs {
  x_start : option string;
  x_end : option string;
  y : option string;
  color : option string;
  color_discrete_map : list (string * string);
  text : option string;
  arg_title : option (list value)
}.

(** [px.timeline(data_frame)] with every other argument left out. *)
Definition no_args : TimelineArgs :=
  mkTimelineArgs None None None None [] None None.

Definition bar_count (f : Figure) : nat :=
  list_sum (map (fun t => List.length (bars t)) (traces f)).

(** The position of a column an argument names: [ValueError] when the
    frame has no column of that name. *)
Definition column_arg (d : DataFrame) (label : string) : result nat :=
  match position label (columns d) with
  | Some p => Ok p
  | None => Raise ValueError
  end.

Definition optional_column (d : DataFrame) (arg : option string)
  : result (option nat) :=
  match arg with
  | None => Ok None
  | Some label => rbind (column_arg d label) (fun p => Ok (Some p))
  end.

Definition optional_cell (p : option nat) (cells : list value) : value :=
  match p with
  | Some q => cell_at q cells
  | None => Null
  end.

Definition discrete_color (m : list (string * string)) (v : value)
  : option string :=
  match v with
  | Str s => assoc s m
  | _ => None
  end.

Definition initial_layout (t : option (list value)) : Layout :=
  mkLayout t None None None None None None.

(** The length of a bar, in the unit of the timestamps: missing when the
    start or the end is. *)
Definition span (start finish : value) : value :=
  match start, finish with
  | Timestamp a, Timestamp b => Int (b - a)
  | _, _ => Null
  end.

Definition numeric (v : value) : bool :=
  match v with
  | Int _ | Null => true
  | _ => false
  end.

(** Whether the library takes a colour column as continuous: it does for
    a column of numbers, which a column of missing values only is too.
    The frame of the model keeps the cells of a column and not the kind
    the column was read as; a column without cells is taken as a text
    column, as the priority column of the file is. *)
Definition is_continuous (col : list value) : bool :=
  match col with
  | [] => false
  | _ :: _ => forallb numeric col
  end.

(** [px.timeline].  The labels of the frame must differ from one another
    and every column an argument names must be in the frame; both
    [x_start] and [x_end] must be given: the library raises [ValueError]
    ("Both x_start and x_end are required") when one is left out,
    whatever the frame holds.  All these errors are of the [ValueError]
    family.  Then one bar per row.  With a continuous colour, or without
    a colour, there is one trace, named by the empty string, with every
    bar; else the rows are grouped into one trace per distinct
    non-missing value of the colour column, in the order the values are
    first met, and a row without a colour value is in no trace. *)
Definition timeline (d : DataFrame) (a : TimelineArgs) : result Figure :=
  if negb (distinct (columns d)) then Raise ValueError
  else
  rbind (optional_column d (y a)) (fun py =>
  rbind (optional_column d (color a)) (fun pc =>
  rbind (optional_column d (text a)) (fun pt =>
  match x_start a, x_end a with
  | Some ls, Some le =>
      rbind (column_arg d ls) (fun ps =>
      rbind (column_arg d le) (fun pe =>
      let bar_of (cells : list value) :=
        mkBar (cell_at ps cells)
              (span (cell_at ps cells) (cell_at pe cells))
              (optional_cell py cells) (optional_cell pt cells) in
      let trace_of (group : value) (rs : list (list value)) :=
        mkTrace group (discrete_color (color_discrete_map a) group)
                (map bar_of rs) None None None in
      let one_trace :=
        [mkTrace (Str "") None (map bar_of (data d)) None None None] in
      Ok (mkFigure
            match pc with
            | None => one_trace
            | Some q =>
                if is_continuous (map (cell_at q) (data d)) then one_trace
                else
                  map (fun g =>
                         trace_of g
                           (filter (fun cells =>
                              if value_eq_dec (cell_at q cells) g
                              then true else false) (data d)))
                      (unique (dropna (map (cell_at q) (data d))))
            end
            (initial_layout (arg_title a)))))
  | _, _ => Raise ValueError
  end))).

(** [fig.update_yaxes(categoryorder=c)] *)
Definition update_yaxes (f : Figure) (c : string) : Figure :=
  let l := layout f in
  mkFigure (traces f)
    (mkLayout (title l) (Some c) (hovermode l) (xaxis_title l)
              (yaxis_title l) (legend_title l) (margin l)).

(** [fig.update_traces(textposition=p)] *)
Definition update_traces_textposition (f : Figure) (p : string) : Figure :=
  mkFigure
    (map (fun t => mkTrace (trace_name t) (marker_color t) (bars t)
                     (Some p) (hovertemplate t) (customdata t))
         (traces f))
    (layout f).

(** [fig.update_traces(hovertemplate=h, customdata=c)] *)
Definition update_traces_hover (f : Figure) (h : string)
           (c : list (list value)) : Figure :=
  mkFigure
    (map (fun t => mkTrace (trace_name t) (marker_color t) (bars t)
                     (textposition t) (Some h) (Some c))
         (traces f))
    (layout f).

(** [fig.update_layout(hovermode=.., xaxis_title=.., yaxis_title=..,
    legend_title=.., margin=..)] *)
Definition update_layout (f : Figure) (hm xt yt lt : string)
           (m : Z * Z * Z * Z) : Figure :=
  let l := layout f in
  mkFigure (traces f)
    (mkLayout (title l) (categoryorder l) (Some hm) (Some xt) (Some yt)
              (Some lt) (Some m)).

End Plotly.
Import Plotly.

(* ================================================================== *)
(** ** The store and the monad of the script *)

(** The objects the script shares: the frames it has made, each at the
    address it was allocated at; the colour dictionary; what was printed. *)
Record Store : Type := mkStore {
  heap : list DataFrame;
  prioridad_colors : list (string * string);
  stdout : list string
}.

Definition ref : Type := nat.

Definition M (A : Type) : Type := Store -> result A * Store.

Definition ret {A} (a : A) : M A := fun s => (Ok a, s).

Definition bind {A B} (m : M A) (f : A -> M B) : M B :=
  fun s =>
    match m s with
    | (Ok a, s') => f a s'
    | (Raise e, s') => (Raise e, s')
    end.

Definition raise {A} (e : exception) : M A := fun s => (Raise e, s).

Definition lift {A} (r : result A) : M A := fun s => (r, s).

Notation "x <- c1 ;; c2" := (bind c1 (fun x => c2))
  (at level 61, c1 at next level, right associativity).
Notation "c1 ;; c2" := (bind c1 (fun _ => c2))
  (at level 61, right associativity).

(** [try: body except <handled>: handler] *)
Definition try_except {A} (body : M A) (handled : exception -> bool)
           (handler : M A) : M A :=
  fun s =>
    match body s with
    | (Raise e, s') => if handled e then handler s' else (Raise e, s')
    | r => r
    end.

Definition is_FileNotFoundError (e : exception) : bool :=
  match e with FileNotFoundError => true | _ => false end.

(** A new frame object; its address is the next free one. *)
Definition new_frame (d : DataFrame) : M ref :=
  fun s =>
    (Ok (List.length (heap s)),
     mkStore (heap s ++ [d]) (prioridad_colors s) (stdout s)).

(** The frame at an address.  An address handed out by [new_frame] always
    holds a frame; any other address is an unbound name. *)
Definition get_frame (r : ref) : M DataFrame :=
  fun s =>
    match nth_error (heap s) r with
    | Some d => (Ok d, s)
    | None => (Raise NameError, s)
    end.

(** In-place update of the frame at an address. *)
Definition set_frame (r : ref) (d : DataFrame) : M unit :=
  fun s =>
    (Ok tt, mkStore (replace_at r d (heap s)) (prioridad_colors s) (stdout s)).

Definition print (msg : string) : M unit :=
  fun s => (Ok tt, mkStore (heap s) (prioridad_colors s) (stdout s ++ [msg])).

Definition get_colors : M (list (string * string)) :=
  fun s => (Ok (prioridad_colors s), s).

Definition set_colors (m : list (string * string)) : M unit :=
  fun s => (Ok tt, mkStore (heap s) m (stdout s)).

(** The store the interpreter starts from. *)
Definition initial_store : Store := mkStore [] [] [].

(* ================================================================== *)
(** ** The script *)

Module App.

(** Line 9: the colour of each priority. *)
Definition prioridad_colors_literal : list (string * string) :=
  [("ALTA", "red"); ("MEDIA", "orange"); ("BAJA", "green")].

Definition csv_file_path : string := "unified_gantt_data.csv".

Definition loaded_message : string :=
  "Unified DataFrame loaded successfully.".

Definition missing_file_message : string :=
  "Error: The file '" ++ csv_file_path ++
  "' was not found. Please ensure it's in the same directory as app.py.".

(** The labels of the file and the labels the chart is drawn from. *)
Definition EQUIPO : string := "EQUIPO".
Definition ACTIVIDAD : string := "ACTIVIDAD A EJECUTAR".
Definition PERSONA : string := "PERSONA ASIGNADA A LA ACTIVIDAD".
Definition Prioridad : string := "Prioridad".
Definition start_time : string := "start_time".
Definition end_time : string := "end_time".

Definition source_columns : list string :=
  [EQUIPO; ACTIVIDAD; PERSONA; Prioridad; start_time; end_time].

(** Lines 68-73: the renaming of the columns. *)
Definition presentation_names : list (string * string) :=
  [(ACTIVIDAD, "Task"); (start_time, "Start"); (end_time, "Finish");
   (PERSONA, "Resource")].

(** The renaming read backwards. *)
Definition source_names : list (string * string) :=
  map (fun p => (snd p, fst p)) presentation_names.

Definition hover_text : string :=
  "<b>Task:</b> %{text}<br><b>Person:</b> %{y}<br><b>Start:</b> %{x|%Y-%m-%d %H:%M}<br><b>Finish:</b> %{customdata[0]|%Y-%m-%d %H:%M}<br><b>Priority:</b> %{customdata[1]}<extra></extra>".

(** *** Methods on frame objects: each makes a new object *)

(** [df[df[label] == v]] *)
Definition m_filter_eq (df : ref) (label : string) (v : value) : M ref :=
  d <- get_frame df ;;
  col <- lift (getitem d label) ;;
  new_frame (getitem_mask d (series_eq col v)).

Definition m_copy (df : ref) : M ref :=
  d <- get_frame df ;; new_frame d.

Definition m_rename (df : ref) (m : list (string * string)) : M ref :=
  d <- get_frame df ;; new_frame (rename d m).

Definition m_sort_values (df : ref) (by_ : list string) : M ref :=
  d <- get_frame df ;;
  sorted <- lift (sort_values d by_) ;;
  new_frame sorted.

Definition m_reset_index_drop (df : ref) : M ref :=
  d <- get_frame df ;; new_frame (reset_index_drop d).

Definition px_timeline (df : ref) (a : TimelineArgs) : M Figure :=
  d <- get_frame df ;; lift (timeline d a).

(** What start-up leaves behind: the table, the identifiers offered,
    and the dropdown with its options (label and value) and its first
    value, [Null] for none. *)
Record Dashboard : Type := mkDashboard {
  df : ref;
  unique_equipos : list value;
  dropdown_options : list (value * value);
  dropdown_value : value
}.

(** Lines 33-54: the identifiers offered and the dropdown. *)
Definition make_layout (df : ref) : M Dashboard :=
  d <- get_frame df ;;
  col <- lift (getitem d EQUIPO) ;;
  let unique_equipos := unique (dropna col) in
  ret (mkDashboard df unique_equipos
         (map (fun equipo => (equipo, equipo)) unique_equipos)
         (match unique_equipos with
          | first :: _ => first
          | [] => Null
          end)).

Section Startup.
Variable parse_datetime : string -> option Z.

(** [pd.read_csv(csv_file_path)], the file being given as the frame the
    reader makes of it, and [None] when there is no such file.  The
    reader gives every column a label of its own, reads an empty field as
    a missing value, and reads a column whose fields are all integers as
    a column of integers. *)
Definition read_csv (file : option DataFrame) : M ref :=
  match file with
  | Some d => new_frame d
  | None => raise FileNotFoundError
  end.

(** [df[label] = pd.to_datetime(df[label])] *)
Definition parse_column (df : ref) (label : string) : M unit :=
  d <- get_frame df ;;
  col <- lift (getitem d label) ;;
  ts <- lift (to_datetime parse_datetime col) ;;
  set_frame df (setitem d label ts).

(** Lines 17-26: the load step. *)
Definition load (file : option DataFrame) : M ref :=
  try_except
    (df <- read_csv file ;;
     parse_column df start_time ;;
     parse_column df end_time ;;
     print loaded_message ;;
     ret df)
    is_FileNotFoundError
    (print missing_file_message ;;
     new_frame empty_frame).

(** Lines 9-54: the module-level code up to the layout. *)
Definition startup (file : option DataFrame) : M Dashboard :=
  set_colors prioridad_colors_literal ;;
  df <- load file ;;
  make_layout df.
End Startup.

(** *** The callback *)

(** Line 63: the frame of the empty plot. *)
Definition empty_view : M ref :=
  new_frame (frame_of_columns ["Start"; "Finish"; "Resource"; "Task";
                               "Prioridad"]).

(** Lines 65-76: filter, rename, sort. *)
Definition filter_transform (df : ref) (selected_equipment : value)
  : M ref :=
  selected <- m_filter_eq df EQUIPO selected_equipment ;;
  filtered_df <- m_copy selected ;;
  filtered_df <- m_rename filtered_df presentation_names ;;
  sorted <- m_sort_values filtered_df ["Resource"; "Start"] ;;
  m_reset_index_drop sorted.

(** Lines 79-104: the figure made from the filtered frame. *)
Definition build_chart (filtered_df : ref) (selected_equipment : value)
  : M Figure :=
  colors <- get_colors ;;
  fig <- px_timeline filtered_df
           (mkTimelineArgs (Some "Start") (Some "Finish") (Some "Resource")
              (Some Prioridad) colors (Some "Task")
              (Some [Str "Gantt Chart para "; selected_equipment;
                     Str " (por Persona)"])) ;;
  let fig := update_yaxes fig "total ascending" in
  let fig := update_traces_textposition fig "inside" in
  d <- get_frame filtered_df ;;
  custom <- lift (getitem_list d ["Finish"; Prioridad]) ;;
  let fig := update_traces_hover fig hover_text custom in
  ret (update_layout fig "closest" "Tiempo" "Persona Asignada" "Prioridad"
         (0, 0, 50, 0)%Z).

(** Lines 61-104.  The table is the module-level [df]; the callback gets
    its address. *)
Definition update_gantt_chart (df : ref) (selected_equipment : value)
  : M Figure :=
  if negb (truthy selected_equipment) then
    empty <- empty_view ;;
    px_timeline empty no_args
  else
    filtered_df <- filter_transform df selected_equipment ;;
    build_chart filtered_df selected_equipment.

(** The frame the callback hands to the timeline constructor. *)
Definition filtered_view (df : ref) (selected_equipment : value) : M ref :=
  if negb (truthy selected_equipment) then empty_view
  else filter_transform df selected_equipment.

(** A run of selection events, each answered by the callback. *)
Fixpoint selection_events (df : ref) (keys : list value) (s : Store)
  : list (result Figure) * Store :=
  match keys with
  | [] => ([], s)
  | k :: rest =>
      let '(fig, s1) := update_gantt_chart df k s in
      let '(figs, s2) := selection_events df rest s1 in
      (fig :: figs, s2)
  end.

End App.
Import App.

(* ================================================================== *)
(** ** A reader of ISO minutes and the tables of the examples *)

Module Iso.

Definition digit (c : ascii) : option Z :=
  let n := nat_of_ascii c in
  if Nat.leb 48 n && Nat.leb n 57 then Some (Z.of_nat (n - 48)) else None.

Definition two (a b : ascii) : option Z :=
  match digit a, digit b with
  | Some x, Some y => Some (10 * x + y)%Z
  | _, _ => None
  end.

(** Days from 1970-01-01 to the given civil date. *)
Definition days_from_civil (y m d : Z) : Z :=
  let y' := (if m <=? 2 then y - 1 else y)%Z in
  let era := (y' / 400)%Z in
  let yoe := (y' - era * 400)%Z in
  let mp := (if m >? 2 then m - 3 else m + 9)%Z in
  let doy := ((153 * mp + 2) / 5 + d - 1)%Z in
  let doe := (yoe * 365 + yoe / 4 - yoe / 100 + doy)%Z in
  (era * 146097 + doe - 719468)%Z.

Definition in_range (lo x hi : Z) : bool := ((lo <=? x) && (x <=? hi))%Z.

(** Reads [YYYY-MM-DDTHH:MM] (a blank may stand for the [T]) as minutes
    since 1970-01-01T00:00; anything else is unreadable. *)
Definition parse_minutes (s : string) : option Z :=
  match list_ascii_of_string s with
  | [y1; y2; y3; y4; "-"; m1; m2; "-"; d1; d2; sep; h1; h2; ":"; n1; n2]%char =>
      match two y1 y2, two y3 y4, two m1 m2, two d1 d2, two h1 h2,
            two n1 n2 with
      | Some yh, Some yl, Some m, Some d, Some h, Some n =>
          if ((sep =? "T") || (sep =? " "))%char
             && in_range 1 m 12 && in_range 1 d 31
             && in_range 0 h 23 && in_range 0 n 59
          then Some ((days_from_civil (100 * yh + yl) m d * 24 + h) * 60
                     + n)%Z
          else None
      | _, _, _, _, _, _ => None
      end
  | _ => None
  end.

End Iso.

Module Examples.

(** The two rows of the scenario, as the reader of the file gives them. *)
Definition scenario_file : DataFrame :=
  mkDataFrame source_columns
    [(0, [Str "A"; Str "Inspect"; Str "Bob"; Str "ALTA";
          Str "2024-01-01T08:00"; Str "2024-01-01T10:00"]);
     (1, [Str "A"; Str "Repair"; Str "Ann"; Str "MEDIA";
          Str "2024-01-01T09:00"; Str "2024-01-01T11:00"])].

(** The table the load step makes of the scenario file. *)
Definition scenario_table : DataFrame :=
  mkDataFrame source_columns
    [(0, [Str "A"; Str "Inspect"; Str "Bob"; Str "ALTA";
          Timestamp 28401600; Timestamp 28401720]);
     (1, [Str "A"; Str "Repair"; Str "Ann"; Str "MEDIA";
          Timestamp 28401660; Timestamp 28401780])].

(** A file whose equipment column is numeric. *)
Definition numbered_file : DataFrame :=
  mkDataFrame source_columns
    [(0, [Int 0; Str "Inspect"; Str "Bob"; Str "ALTA";
          Str "2024-01-01T08:00"; Str "2024-01-01T10:00"]);
     (1, [Int 1; Str "Repair"; Str "Ann"; Str "MEDIA";
          Str "2024-01-01T09:00"; Str "2024-01-01T11:00"])].

(** A file with a timestamp the reader cannot read. *)
Definition malformed_file : DataFrame :=
  mkDataFrame source_columns
    [(0, [Str "A"; Str "Inspect"; Str "Bob"; Str "ALTA";
          Str "2024-01-01T08:00"; Str "soon"])].

(** A file that has, besides the six columns, a column that is already
    named Task. *)
Definition clash_file : DataFrame :=
  mkDataFrame ("Task" :: source_columns)
    [(0, [Str "spare"; Str "A"; Str "Inspect"; Str "Bob"; Str "ALTA";
          Str "2024-01-01T08:00"; Str "2024-01-01T10:00"])].

(** The table the load step makes of it. *)
Definition clash_table : DataFrame :=
  mkDataFrame ("Task" :: source_columns)
    [(0, [Str "spare"; Str "A"; Str "Inspect"; Str "Bob"; Str "ALTA";
          Timestamp 28401600; Timestamp 28401720])].

End Examples.
Import Examples.

(* ================================================================== *)
(** ** What the properties are stated with *)

(** The frame at an address of the store. *)
Definition frame_at (s : Store) (r : ref) : option DataFrame :=
  nth_error (heap s) r.

(** The store after one more frame was allocated. *)
Definition push (s : Store) (d : DataFrame) : Store :=
  mkStore (heap s ++ [d]) (prioridad_colors s) (stdout s).

(** The cell of a row under a label of the frame. *)
Definition field (d : DataFrame) (label : string) (cells : list value)
  : value :=
  match position label (columns d) with
  | Some p => cell_at p cells
  | None => Null
  end.

(** An Activity Table: the labels differ from one another, the six
    columns of the file are there, and no column bears a presentation
    name yet. *)
Definition activity_table (d : DataFrame) : bool :=
  distinct (columns d)
  && forallb (fun l => has_label l (columns d)) source_columns
  && forallb (fun l => negb (has_label l (columns d)))
       (map snd presentation_names).

(** A label is a presentation name. *)
Definition presentation (c : string) : Prop :=
  In c (map snd presentation_names).

(** The second store is the first with more frames allocated: every
    object of the first is in it, unchanged. *)
Definition extends (s s' : Store) : Prop :=
  exists more,
    heap s' = heap s ++ more
    /\ prioridad_colors s' = prioridad_colors s
    /\ stdout s' = stdout s.

(** A computation that only allocates: whatever it is run from, and
    whether it returns or raises, the store it leaves extends the one it
    found. *)
Definition allocates_only {A : Type} (m : M A) : Prop :=
  forall s, extends s (snd (m s)).

(** The rows the callback selects for a key: none for a key that fails
    the truth test, else those whose equipment cell equals the key. *)
Definition selects (d : DataFrame) (k : value) (cells : list value) : bool :=
  truthy k && value_eqb (field d EQUIPO cells) k.

(** The content of the frame [filtered_view] makes, from the content of
    the table. *)
Definition view_of (d : DataFrame) (k : value) : result DataFrame :=
  if negb (truthy k) then
    Ok (frame_of_columns ["Start"; "Finish"; "Resource"; "Task"; "Prioridad"])
  else
    rbind (getitem d EQUIPO) (fun col =>
    rbind (sort_values
             (rename (getitem_mask d (series_eq col k)) presentation_names)
             ["Resource"; "Start"]) (fun sorted =>
    Ok (reset_index_drop sorted))).

Definition value_lt (a b : value) : Prop := value_compare a b = Lt.
Definition value_le (a b : value) : Prop := value_compare a b <> Gt.

(** Ascending order of pairs: by the first component, then the second. *)
Definition pair_le (x y : value * value) : Prop :=
  value_lt (fst x) (fst y) \/ (fst x = fst y /\ value_le (snd x) (snd y)).

Definition resource_start (v : DataFrame) (cells : list value)
  : value * value :=
  (field v "Resource" cells, field v "Start" cells).

Definition person_start (d : DataFrame) (cells : list value)
  : value * value :=
  (field d PERSONA cells, field d start_time cells).

Definition same_pair (x y : value * value) : bool :=
  (if value_eq_dec (fst x) (fst y) then true else false)
  && (if value_eq_dec (snd x) (snd y) then true else false).

(** The place of the first occurrence of a value in a column, the length
    of the column when it does not occur. *)
Fixpoint first_index (v : value) (col : list value) : nat :=
  match col with
  | [] => 0
  | c :: rest => if value_eq_dec c v then 0 else S (first_index v rest)
  end.

(** A cell the date-time parser cannot read. *)
Definition unreadable (parse_datetime : string -> option Z) (v : value)
  : Prop :=
  exists s, v = Str s /\ parse_datetime s = None.

(** The store start-up reaches from a file that is read with
    [Iso.parse_minutes]. *)
Definition store_after_startup (file : option DataFrame) : Store :=
  snd (startup Iso.parse_minutes file initial_store).

(** The frame of the empty plot. *)
Definition empty_plot_frame : DataFrame :=
  frame_of_columns ["Start"; "Finish"; "Resource"; "Task"; "Prioridad"].

(** The stores of the examples: the table is at address 0. *)
Definition scenario_store : Store := store_after_startup (Some scenario_file).
Definition numbered_store : Store := store_after_startup (Some numbered_file).
Definition clash_store : Store := store_after_startup (Some clash_file).

(** Filtering the table at [r] by [k] gives exactly the records whose
    equipment cell is [k], and as many as the column has cells equal to
    [k]. *)
Definition filter_exact (s : Store) (r : ref) (k : value) : Prop :=
  exists d col a s' v,
    frame_at s r = Some d
    /\ getitem d EQUIPO = Ok col
    /\ filtered_view r k s = (Ok a, s')
    /\ frame_at s' a = Some v
    /\ Permutation (data v)
         (filter (fun cells =>
                    if value_eq_dec (field d EQUIPO cells) k
                    then true else false) (data d))
    /\ Forall (fun cells => field v EQUIPO cells = k) (data v)
    /\ List.length (rows v) = count_occ value_eq_dec col k.

(** A record of the view traces back to the table: its cells are those
    of a source record, each presentation field is the source field it
    was renamed from, and the renaming read backwards gives the source
    fields again. *)
Definition traces_back (d v : DataFrame) (cells : list value) : Prop :=
  In cells (data d)
  /\ field v "Task" cells = field d ACTIVIDAD cells
  /\ field v "Start" cells = field d start_time cells
  /\ field v "Finish" cells = field d end_time cells
  /\ field v "Resource" cells = field d PERSONA cells
  /\ field (rename v source_names) ACTIVIDAD cells = field d ACTIVIDAD cells
  /\ field (rename v source_names) start_time cells
     = field d start_time cells
  /\ field (rename v source_names) end_time cells = field d end_time cells
  /\ field (rename v source_names) PERSONA cells = field d PERSONA cells.

(** The renaming loses nothing of the table at [r] under the key [k]:
    renaming a frame that has the labels of the table and renaming it back
    gives the frame again, rows and labels; the view is built, its
    records are exactly the selected records of the table, each traces
    back to the table, and the renaming read backwards leaves the rows of
    the view as they are and gives the labels of the table again. *)
Definition rename_lossless (s : Store) (r : ref) (d : DataFrame) (k : value)
  : Prop :=
  (forall f, columns f = columns d ->
             rename (rename f presentation_names) source_names = f)
  /\ exists a s' v,
      filtered_view r k s = (Ok a, s')
      /\ frame_at s' a = Some v
      /\ Permutation (data v) (filter (selects d k) (data d))
      /\ data (rename v source_names) = data v
      /\ Forall (traces_back d v) (data v)
      /\ (truthy k = true -> columns (rename v source_names) = columns d).

(** Every row of the frame has one cell for each column. *)
Definition rectangular (d : DataFrame) : bool :=
  forallb (fun r => Nat.eqb (List.length (snd r)) (List.length (columns d)))
    (rows d).

(** A cell of a converted column: a timestamp or a missing value. *)
Definition timestamp_or_missing (v : value) : bool :=
  match v with
  | Timestamp _ | Null => true
  | _ => false
  end.

(** The arguments of the call of lines 79-86. *)
Definition chart_args (colors : list (string * string)) (k : value)
  : TimelineArgs :=
  mkTimelineArgs (Some "Start") (Some "Finish") (Some "Resource")
    (Some Prioridad) colors (Some "Task")
    (Some [Str "Gantt Chart para "; k; Str " (por Persona)"]).

(** Lines 89-102 on a figure, [custom] being the rows handed over as
    custom data. *)
Definition decorate (fig : Figure) (custom : list (list value)) : Figure :=
  update_layout
    (update_traces_hover
       (update_traces_textposition (update_yaxes fig "total ascending")
          "inside")
       hover_text custom)
    "closest" "Tiempo" "Persona Asignada" "Prioridad" (0, 0, 50, 0)%Z.

(** The figure [build_chart] makes, from the content of the view. *)
Definition chart_of_view (v : DataFrame) (colors : list (string * string))
           (k : value) : result Figure :=
  rbind (timeline v (chart_args colors k)) (fun fig =>
  rbind (getitem_list v ["Finish"; Prioridad]) (fun custom =>
  Ok (decorate fig custom))).

(** The outcome of the callback, from what is at the address of the table,
    the colour dictionary and the key. *)
Definition figure_of (table : option DataFrame)
           (colors : list (string * string)) (k : value) : result Figure :=
  if negb (truthy k) then timeline empty_plot_frame no_args
  else
    match table with
    | None => Raise NameError
    | Some d => rbind (view_of d k) (fun v => chart_of_view v colors k)
    end.

(** The bar a record of the table is drawn as. *)
Definition bar_of_record (d : DataFrame) (cells : list value) : Bar :=
  mkBar (field d start_time cells)
        (span (field d start_time cells) (field d end_time cells))
        (field d PERSONA cells) (field d ACTIVIDAD cells).

(** The bar of a row of the view, from the places of its cells. *)
Definition view_bar (pS pF pR pT : nat) (cells : list value) : Bar :=
  mkBar (cell_at pS cells) (span (cell_at pS cells) (cell_at pF cells))
        (cell_at pR cells) (cell_at pT cells).

(** A trace after lines 90-94. *)
Definition finished (custom : list (list value)) (t : Trace) : Trace :=
  mkTrace (trace_name t) (marker_color t) (bars t)
    (Some "inside") (Some hover_text) (Some custom).

(** The traces the timeline makes of the rows of a view, before they are
    finished. *)
Definition view_traces (colors : list (string * string))
           (pS pF pR pT pP : nat) (rows_ : list (list value)) : list Trace :=
  if is_continuous (map (cell_at pP) rows_) then
    [mkTrace (Str "") None (map (view_bar pS pF pR pT) rows_)
       None None None]
  else
    map (fun g =>
           mkTrace g (discrete_color colors g)
             (map (view_bar pS pF pR pT)
                (filter (fun c => if value_eq_dec (cell_at pP c) g
                                  then true else false) rows_))
             None None None)
      (unique (dropna (map (cell_at pP) rows_))).

(** Every priority of the records the key selects is a text. *)
Definition text_priorities (d : DataFrame) (k : value) : Prop :=
  forall cells,
    In cells (data d) -> field d EQUIPO cells = k ->
    exists p, field d Prioridad cells = Str p.

(* ================================================================== *)
(** ** Order and equality of values *)

Section ValueOrder.

Lemma value_eqb_eq (a b : value) : value_eqb a b = true -> a = b.
Proof.
  destruct a, b; simpl; try discriminate; intros H.
  - apply String.eqb_eq in H. now subst.
  - apply Z.eqb_eq in H. now subst.
  - apply Z.eqb_eq in H. now subst.
Qed.

Lemma value_eqb_refl (a : value) : a <> Null -> value_eqb a a = true.
Proof.
  destruct a; simpl; intros H.
  - now contradiction H.
  - apply String.eqb_refl.
  - apply Z.eqb_refl.
  - apply Z.eqb_refl.
Qed.

Lemma truthy_not_null (k : value) : truthy k = true -> k <> Null.
Proof. destruct k; simpl; congruence. Qed.

Lemma value_eqb_iff (c k : value) :
  k <> Null -> (value_eqb c k = true <-> c = k).
Proof.
  intros Hk; split.
  - apply value_eqb_eq.
  - intros ->. now apply value_eqb_refl.
Qed.

Lemma string_compare_refl (s : string) : String.compare s s = Eq.
Proof.
  induction s as [|a s IH]; simpl; [reflexivity|].
  unfold Ascii.compare. now rewrite N.compare_refl.
Qed.

Lemma ascii_compare_lt_trans (a b c : ascii) :
  Ascii.compare a b = Lt -> Ascii.compare b c = Lt ->
  Ascii.compare a c = Lt.
Proof.
  unfold Ascii.compare. rewrite !N.compare_lt_iff. apply N.lt_trans.
Qed.

Lemma string_compare_lt_trans (s t u : string) :
  String.compare s t = Lt -> String.compare t u = Lt ->
  String.compare s u = Lt.
Proof.
  revert t u.
  induction s as [|a s IH]; intros [|b t] [|c u]; simpl;
    try discriminate; try reflexivity.
  destruct (Ascii.compare a b) eqn:Hab; try discriminate;
    destruct (Ascii.compare b c) eqn:Hbc; try discriminate; intros H1 H2.
  - apply Ascii.compare_eq_iff in Hab, Hbc. subst.
    unfold Ascii.compare. rewrite N.compare_refl. eauto.
  - apply Ascii.compare_eq_iff in Hab. subst. now rewrite Hbc.
  - apply Ascii.compare_eq_iff in Hbc. subst. now rewrite Hab.
  - now rewrite (ascii_compare_lt_trans a b c).
Qed.

Lemma value_compare_refl (a : value) : value_compare a a = Eq.
Proof.
  destruct a; simpl.
  - reflexivity.
  - apply string_compare_refl.
  - apply Z.compare_refl.
  - apply Z.compare_refl.
Qed.

Lemma value_compare_eq (a b : value) : value_compare a b = Eq -> a = b.
Proof.
  destruct a, b; simpl; try discriminate; intros H.
  - reflexivity.
  - now apply String.compare_eq_iff in H; subst.
  - now apply Z.compare_eq in H; subst.
  - now apply Z.compare_eq in H; subst.
Qed.

Lemma value_compare_antisym (a b : value) :
  value_compare b a = CompOpp (value_compare a b).
Proof.
  destruct a, b; simpl; try reflexivity.
  - apply String.compare_antisym.
  - apply Z.compare_antisym.
  - apply Z.compare_antisym.
Qed.

Lemma value_compare_lt_trans (a b c : value) :
  value_compare a b = Lt -> value_compare b c = Lt ->
  value_compare a c = Lt.
Proof.
  destruct a, b, c; simpl; try discriminate; try reflexivity.
  - apply string_compare_lt_trans.
  - rewrite !Z.compare_lt_iff. apply Z.lt_trans.
  - rewrite !Z.compare_lt_iff. apply Z.lt_trans.
Qed.

End ValueOrder.

(* ================================================================== *)
(** ** The stable sort *)

Section StableSortFacts.
Context {A : Type} (leb : A -> A -> bool).

Lemma insert_perm (x : A) (l : list A) :
  Permutation (insert leb x l) (x :: l).
Proof.
  induction l as [|y l IH]; simpl; [reflexivity|].
  destruct (leb x y); [reflexivity|].
  rewrite IH. apply perm_swap.
Qed.

Lemma stable_sort_perm (l : list A) : Permutation (stable_sort leb l) l.
Proof.
  induction l as [|x l IH]; simpl; [reflexivity|].
  rewrite insert_perm. now constructor.
Qed.

Lemma insert_filter (p : A -> bool) (x : A) (l : list A) :
  (forall a b, p a = true -> p b = true -> leb a b = true) ->
  filter p (insert leb x l) = filter p (x :: l).
Proof.
  intros Hp.
  induction l as [|y l IH]; simpl; [reflexivity|].
  destruct (leb x y) eqn:Hxy; [reflexivity|].
  simpl in *. rewrite IH.
  destruct (p x) eqn:Hx, (p y) eqn:Hy; try reflexivity.
  rewrite (Hp x y Hx Hy) in Hxy. discriminate.
Qed.

(** Stability: the elements of a class whose members do not exceed one
    another come out in the order they went in. *)
Lemma stable_sort_filter (p : A -> bool) (l : list A) :
  (forall a b, p a = true -> p b = true -> leb a b = true) ->
  filter p (stable_sort leb l) = filter p l.
Proof.
  intros Hp.
  induction l as [|x l IH]; simpl; [reflexivity|].
  rewrite (insert_filter p x _ Hp). simpl. now rewrite IH.
Qed.

Hypothesis leb_total : forall a b, leb a b = false -> leb b a = true.
Hypothesis leb_trans :
  forall a b c, leb a b = true -> leb b c = true -> leb a c = true.

Lemma insert_sorted (x : A) (l : list A) :
  StronglySorted (fun a b => leb a b = true) l ->
  StronglySorted (fun a b => leb a b = true) (insert leb x l).
Proof.
  induction 1 as [|y l Hs IH Hy]; simpl.
  - repeat constructor.
  - destruct (leb x y) eqn:Hxy.
    + constructor; [now constructor|].
      constructor; [assumption|].
      eapply Forall_impl; [|exact Hy].
      intros z Hz. now apply (leb_trans x y z).
    + constructor; [assumption|].
      eapply Permutation_Forall.
      * symmetry. apply insert_perm.
      * constructor; [now apply leb_total | assumption].
Qed.

Lemma stable_sort_sorted (l : list A) :
  StronglySorted (fun a b => leb a b = true) (stable_sort leb l).
Proof.
  induction l as [|x l IH]; simpl.
  - constructor.
  - now apply insert_sorted.
Qed.

Lemma leb_refl (a : A) : leb a a = true.
Proof.
  destruct (leb a a) eqn:E; [reflexivity|].
  pose proof (leb_total a a E). congruence.
Qed.

(** Two sorted lists in which every class of equals reads the same are
    the same list. *)
Lemma sorted_classes_eq (l1 l2 : list A) :
  StronglySorted (fun a b => leb a b = true) l1 ->
  StronglySorted (fun a b => leb a b = true) l2 ->
  (forall x, filter (fun a => leb x a && leb a x) l1
             = filter (fun a => leb x a && leb a x) l2) ->
  l1 = l2.
Proof.
  intros H1. revert l2.
  induction H1 as [|a t1 Hs1 IH Ha]; intros l2 H2 Hf.
  - destruct l2 as [|b t2]; [reflexivity|].
    specialize (Hf b). simpl in Hf. rewrite leb_refl in Hf. discriminate.
  - destruct l2 as [|b t2].
    + specialize (Hf a). simpl in Hf. rewrite leb_refl in Hf. discriminate.
    + inversion H2 as [|? ? Hs2 Hb]; subst.
      rewrite Forall_forall in Ha, Hb.
      assert (Hab : a = b).
      { pose proof (Hf a) as Fa. simpl in Fa.
        rewrite leb_refl in Fa. simpl in Fa.
        destruct (leb a b && leb b a) eqn:E; [now injection Fa|].
        assert (Hin : In a t2).
        { eapply proj1. apply filter_In. rewrite <- Fa. now left. }
        pose proof (Hf b) as Fb. simpl in Fb.
        rewrite leb_refl, andb_comm, E in Fb. simpl in Fb.
        assert (Hin' : In b t1).
        { eapply proj1. apply filter_In. rewrite Fb. now left. }
        rewrite (Ha b Hin'), (Hb a Hin) in E. discriminate. }
      subst b. f_equal. apply IH; [assumption|].
      intros x. specialize (Hf x). simpl in Hf.
      destruct (leb x a && leb a x); [now injection Hf | assumption].
Qed.

(** So the outcome of a stable sort does not depend on how it sorts: a
    sorted list that keeps every class of equals in the order of the
    input is the list [stable_sort] makes. *)
Lemma stable_sort_unique (l l' : list A) :
  StronglySorted (fun a b => leb a b = true) l' ->
  (forall x, filter (fun a => leb x a && leb a x) l'
             = filter (fun a => leb x a && leb a x) l) ->
  l' = stable_sort leb l.
Proof.
  intros Hs Hf. apply sorted_classes_eq;
    [assumption | apply stable_sort_sorted |].
  intros x. rewrite Hf. symmetry. apply stable_sort_filter.
  intros a b Ha Hb.
  apply andb_prop in Ha, Hb. destruct Ha as [_ Hax], Hb as [Hxb _].
  now apply (leb_trans a x b).
Qed.

End StableSortFacts.

Lemma stable_sort_map {A B : Type} (f : A -> B) (leb : B -> B -> bool)
      (l : list A) :
  map f (stable_sort (fun a b => leb (f a) (f b)) l)
  = stable_sort leb (map f l).
Proof.
  induction l as [|x l IH]; simpl; [reflexivity|].
  rewrite <- IH.
  generalize (stable_sort (fun a b => leb (f a) (f b)) l) as m.
  induction m as [|y m IHm]; simpl; [reflexivity|].
  destruct (leb (f x) (f y)); simpl; [reflexivity|].
  now rewrite IHm.
Qed.

Lemma StronglySorted_impl {A : Type} (R R' : A -> A -> Prop) (l : list A) :
  (forall a b, R a b -> R' a b) ->
  StronglySorted R l -> StronglySorted R' l.
Proof.
  intros H. induction 1 as [|x l Hs IH Hx]; constructor; auto.
  eapply Forall_impl; [|exact Hx]. auto.
Qed.

Section LexOrder.

Lemma lex_leb_total (ps : list nat) (a b : list value) :
  lex_leb ps a b = false -> lex_leb ps b a = true.
Proof.
  induction ps as [|p ps IH]; simpl; [discriminate|].
  rewrite (value_compare_antisym (cell_at p a) (cell_at p b)).
  destruct (value_compare (cell_at p a) (cell_at p b)); simpl;
    auto; discriminate.
Qed.

Lemma lex_leb_trans (ps : list nat) (a b c : list value) :
  lex_leb ps a b = true -> lex_leb ps b c = true -> lex_leb ps a c = true.
Proof.
  induction ps as [|p ps IH]; simpl; [reflexivity|].
  destruct (value_compare (cell_at p a) (cell_at p b)) eqn:Hab;
    try discriminate;
    destruct (value_compare (cell_at p b) (cell_at p c)) eqn:Hbc;
    try discriminate; intros H1 H2.
  - apply value_compare_eq in Hab, Hbc. rewrite Hab, Hbc.
    rewrite value_compare_refl. auto.
  - apply value_compare_eq in Hab. now rewrite Hab, Hbc.
  - apply value_compare_eq in Hbc. now rewrite <- Hbc, Hab.
  - now rewrite (value_compare_lt_trans _ _ _ Hab Hbc).
Qed.

Lemma lex_leb_pair (p q : nat) (a b : list value) :
  lex_leb [p; q] a b = true ->
  pair_le (cell_at p a, cell_at q a) (cell_at p b, cell_at q b).
Proof.
  unfold pair_le, value_lt, value_le. simpl.
  destruct (value_compare (cell_at p a) (cell_at p b)) eqn:Hp;
    try discriminate; intros H.
  - right. split; [now apply value_compare_eq|].
    destruct (value_compare (cell_at q a) (cell_at q b));
      congruence.
  - now left.
Qed.

Lemma lex_leb_same (p q : nat) (a b : list value) :
  cell_at p a = cell_at p b -> cell_at q a = cell_at q b ->
  lex_leb [p; q] a b = true.
Proof.
  intros Hp Hq. simpl. rewrite Hp, Hq, !value_compare_refl. reflexivity.
Qed.

End LexOrder.

(* ================================================================== *)
(** ** Labels, positions and the renaming *)

Section Labels.

Lemma has_label_In (l : string) (labels : list string) :
  has_label l labels = true <-> In l labels.
Proof.
  unfold has_label. rewrite existsb_exists. split.
  - intros [x [Hx He]]. apply String.eqb_eq in He. now subst.
  - intros H. exists l. split; [assumption | apply String.eqb_refl].
Qed.

Lemma position_In (l : string) (labels : list string) :
  In l labels -> exists p, position l labels = Some p.
Proof.
  induction labels as [|c rest IH]; simpl; [contradiction|].
  intros H. destruct (String.eqb_spec c l) as [->|Hne]; [now eexists|].
  destruct H as [H|H]; [contradiction|].
  destruct (IH H) as [p Hp]. rewrite Hp. now eexists.
Qed.

Lemma position_map (f : string -> string) (l : string)
      (labels : list string) :
  (forall c, In c labels -> f c = f l -> c = l) ->
  position (f l) (map f labels) = position l labels.
Proof.
  induction labels as [|c rest IH]; simpl; intros H; [reflexivity|].
  destruct (String.eqb_spec c l) as [->|Hne].
  - now rewrite String.eqb_refl.
  - destruct (String.eqb_spec (f c) (f l)) as [He|_].
    + contradiction Hne. apply H; auto.
    + rewrite IH; auto.
Qed.

Lemma count_label_map (f : string -> string) (l : string)
      (labels : list string) :
  (forall c, In c labels -> f c = f l -> c = l) ->
  count_label (f l) (map f labels) = count_label l labels.
Proof.
  unfold count_label.
  induction labels as [|c rest IH]; simpl; intros H; [reflexivity|].
  destruct (String.eqb_spec c l) as [->|Hne].
  - rewrite String.eqb_refl. simpl. f_equal. apply IH. auto.
  - destruct (String.eqb_spec (f c) (f l)) as [He|_].
    + contradiction Hne. apply H; auto.
    + apply IH. auto.
Qed.

Lemma count_label_absent (l : string) (labels : list string) :
  has_label l labels = false -> count_label l labels = 0.
Proof.
  unfold count_label, has_label.
  induction labels as [|c rest IH]; simpl; [reflexivity|].
  rewrite String.eqb_sym.
  destruct (c =? l); simpl; [discriminate | exact IH].
Qed.

Lemma count_label_distinct (l : string) (labels : list string) :
  distinct labels = true -> count_label l labels <= 1.
Proof.
  induction labels as [|c rest IH]; simpl; [unfold count_label; simpl; lia|].
  intros H. apply andb_prop in H. destruct H as [Hc Hd].
  apply negb_true_iff in Hc.
  unfold count_label in *. simpl.
  destruct (String.eqb_spec c l) as [->|Hne]; simpl.
  - apply count_label_absent in Hc. unfold count_label in Hc.
    rewrite Hc. lia.
  - now apply IH.
Qed.

Lemma rename_label_cases (c : string) :
  rename_label presentation_names c
  = if ACTIVIDAD =? c then "Task"
    else if start_time =? c then "Start"
    else if end_time =? c then "Finish"
    else if PERSONA =? c then "Resource"
    else c.
Proof.
  cbv beta iota fix delta [rename_label presentation_names assoc].
  destruct (ACTIVIDAD =? c); [reflexivity|].
  destruct (start_time =? c); [reflexivity|].
  destruct (end_time =? c); [reflexivity|].
  destruct (PERSONA =? c); reflexivity.
Qed.

(** On labels that are not presentation names the renaming never sends
    two labels of the file to one. *)
Lemma rename_label_inj (c l : string) :
  In l source_columns -> ~ presentation c ->
  rename_label presentation_names c = rename_label presentation_names l ->
  c = l.
Proof.
  intros Hl Hc.
  rewrite (rename_label_cases c).
  destruct (String.eqb_spec ACTIVIDAD c) as [<-|H1];
    [| destruct (String.eqb_spec start_time c) as [<-|H2];
       [| destruct (String.eqb_spec end_time c) as [<-|H3];
          [| destruct (String.eqb_spec PERSONA c) as [<-|H4]]]];
    simpl in Hl;
    repeat (destruct Hl as [<-|Hl]; [vm_compute; try congruence|]);
    try contradiction;
    intros He; try (exfalso; apply Hc; rewrite He; vm_compute; tauto);
    try (now symmetry).
Qed.

Lemma rename_label_kept (l : string) :
  ~ In l (map fst presentation_names) ->
  rename_label presentation_names l = l.
Proof.
  intros H. rewrite (rename_label_cases l).
  destruct (String.eqb_spec ACTIVIDAD l) as [<-|_];
    [contradiction H; vm_compute; tauto|].
  destruct (String.eqb_spec start_time l) as [<-|_];
    [contradiction H; vm_compute; tauto|].
  destruct (String.eqb_spec end_time l) as [<-|_];
    [contradiction H; vm_compute; tauto|].
  destruct (String.eqb_spec PERSONA l) as [<-|_];
    [contradiction H; vm_compute; tauto|].
  reflexivity.
Qed.

Lemma rename_label_presentation (c : string) :
  presentation (rename_label presentation_names c)
  \/ rename_label presentation_names c = c.
Proof.
  rewrite (rename_label_cases c). unfold presentation.
  destruct (ACTIVIDAD =? c); [left; vm_compute; tauto|].
  destruct (start_time =? c); [left; vm_compute; tauto|].
  destruct (end_time =? c); [left; vm_compute; tauto|].
  destruct (PERSONA =? c); [left; vm_compute; tauto|].
  now right.
Qed.

(** On the labels of an Activity Table the renaming sends no two labels
    to one, so the labels of the view differ from one another. *)
Lemma rename_label_inj_table (labels : list string) (c l : string) :
  (forall x, In x labels -> ~ presentation x) ->
  In c labels -> In l labels ->
  rename_label presentation_names c = rename_label presentation_names l ->
  c = l.
Proof.
  intros Hn Hc Hl He.
  destruct (in_dec string_dec l (map fst presentation_names)) as [Hk|Hk].
  - apply rename_label_inj; auto.
    revert Hk. vm_compute. tauto.
  - rewrite (rename_label_kept l Hk) in He.
    destruct (rename_label_presentation c) as [Hp|Hp].
    + rewrite He in Hp. now contradiction (Hn l Hl).
    + congruence.
Qed.

Lemma distinct_map (f : string -> string) (labels : list string) :
  (forall c l, In c labels -> In l labels -> f c = f l -> c = l) ->
  distinct labels = true -> distinct (map f labels) = true.
Proof.
  induction labels as [|c rest IH]; intros Hinj; simpl; [reflexivity|].
  intros H. apply andb_prop in H. destruct H as [Hc Hd].
  apply andb_true_intro. split.
  - apply negb_true_iff in Hc. apply negb_true_iff.
    destruct (has_label (f c) (map f rest)) eqn:E; [|reflexivity].
    apply has_label_In in E. apply in_map_iff in E.
    destruct E as [x [Hx Hin]].
    assert (x = c) by (apply Hinj; simpl; auto).
    subst x. apply has_label_In in Hin. congruence.
  - apply IH; [|exact Hd]. intros x l Hx Hl. apply Hinj; now right.
Qed.

End Labels.

(* ================================================================== *)
(** ** The content of the filtered view *)

Section ViewContent.

Lemma activity_table_facts (d : DataFrame) :
  activity_table d = true ->
  distinct (columns d) = true
  /\ (forall l, In l source_columns -> In l (columns d))
  /\ (forall c, In c (columns d) -> ~ presentation c).
Proof.
  unfold activity_table. intros H.
  apply andb_prop in H. destruct H as [H Hp].
  apply andb_prop in H. destruct H as [Hd Hs].
  rewrite forallb_forall in Hs, Hp.
  repeat split; [assumption | |].
  - intros l Hl. now apply has_label_In, Hs.
  - intros c Hc Hpc. apply Hp in Hpc.
    apply negb_true_iff in Hpc.
    apply has_label_In in Hc. congruence.
Qed.

Lemma distinct_renamed (d : DataFrame) :
  activity_table d = true ->
  distinct (map (rename_label presentation_names) (columns d)) = true.
Proof.
  intros Hd. destruct (activity_table_facts d Hd) as [Hdis [_ Hn]].
  apply distinct_map; [|exact Hdis].
  intros c l. now apply rename_label_inj_table.
Qed.

Lemma renamed_position (d : DataFrame) (l : string) :
  activity_table d = true -> In l source_columns ->
  position (rename_label presentation_names l)
           (map (rename_label presentation_names) (columns d))
  = position l (columns d).
Proof.
  intros Hd Hl. apply activity_table_facts in Hd.
  destruct Hd as [_ [_ Hn]].
  apply position_map. intros c Hc. apply rename_label_inj; auto.
Qed.

Lemma renamed_count (d : DataFrame) (l : string) :
  activity_table d = true -> In l source_columns ->
  Nat.ltb 1 (count_label (rename_label presentation_names l)
               (map (rename_label presentation_names) (columns d)))
  = false.
Proof.
  intros Hd Hl. apply Nat.ltb_ge.
  destruct (activity_table_facts d Hd) as [Hdis [_ Hn]].
  rewrite count_label_map.
  - now apply count_label_distinct.
  - intros c Hc. apply rename_label_inj; auto.
Qed.

Lemma source_position (d : DataFrame) (l : string) :
  activity_table d = true -> In l source_columns ->
  exists p, position l (columns d) = Some p.
Proof.
  intros Hd Hl. apply position_In.
  now apply (activity_table_facts d Hd).
Qed.

Lemma select_map {A : Type} (b : A -> bool) (l : list A) :
  select l (map b l) = filter b l.
Proof.
  induction l as [|x l IH]; simpl; [reflexivity|].
  destruct (b x); now rewrite IH.
Qed.

Lemma map_snd_combine {A B : Type} (a : list A) (b : list B) :
  List.length a = List.length b -> map snd (combine a b) = b.
Proof.
  revert b. induction a as [|x a IH]; intros [|y b]; simpl;
    try discriminate; [reflexivity|].
  intros H. f_equal. apply IH. now injection H.
Qed.

Lemma data_reset_index_drop (d : DataFrame) :
  data (reset_index_drop d) = data d.
Proof.
  unfold data, reset_index_drop. simpl.
  apply map_snd_combine. now rewrite length_seq, length_map.
Qed.

Lemma filter_map_snd (b : list value -> bool) (rs : list Row) :
  map snd (filter (fun r => b (snd r)) rs) = filter b (map snd rs).
Proof.
  induction rs as [|r rs IH]; simpl; [reflexivity|].
  destruct (b (snd r)); simpl; now rewrite IH.
Qed.

(** For an Activity Table and a key that passes the truth test, the view
    is the selected rows in sorted order under the new labels. *)
Lemma view_of_truthy (d : DataFrame) (k : value) :
  activity_table d = true -> truthy k = true ->
  exists pE pR pS v,
    position EQUIPO (columns d) = Some pE
    /\ position PERSONA (columns d) = Some pR
    /\ position start_time (columns d) = Some pS
    /\ view_of d k = Ok v
    /\ columns v = map (rename_label presentation_names) (columns d)
    /\ data v
       = stable_sort (lex_leb [pR; pS])
           (filter (fun c => value_eqb (cell_at pE c) k) (data d)).
Proof.
  intros Hd Hk.
  destruct (source_position d EQUIPO Hd) as [pE HpE]; [vm_compute; tauto|].
  destruct (source_position d PERSONA Hd) as [pR HpR]; [vm_compute; tauto|].
  destruct (source_position d start_time Hd) as [pS HpS];
    [vm_compute; tauto|].
  exists pE, pR, pS. eexists.
  repeat (split; [eassumption|]).
  unfold view_of. rewrite Hk. simpl negb. cbv iota.
  unfold getitem. rewrite HpE. unfold rbind at 1.
  unfold sort_values, key_positions, key_position.
  cbn [columns rename getitem_mask].
  change "Resource" with (rename_label presentation_names PERSONA).
  change "Start" with (rename_label presentation_names start_time).
  rewrite !renamed_position, !renamed_count, HpR, HpS
    by (assumption || (vm_compute; tauto)).
  cbn [rbind].
  split; [reflexivity|]. split; [reflexivity|].
  rewrite data_reset_index_drop. unfold data. cbn [rows].
  unfold series_eq. rewrite map_map.
  cbn [rows rename getitem_mask]. rewrite select_map.
  rewrite (stable_sort_map snd (lex_leb [pR; pS])).
  now rewrite (filter_map_snd (fun c => value_eqb (cell_at pE c) k)).
Qed.

End ViewContent.

(* ================================================================== *)
(** ** Running the frame methods in the store *)

Section Runs.

Lemma frame_at_push_new (s : Store) (d : DataFrame) :
  frame_at (push s d) (List.length (heap s)) = Some d.
Proof.
  unfold frame_at, push. simpl.
  rewrite nth_error_app2, Nat.sub_diag by lia. reflexivity.
Qed.

Lemma extends_refl (s : Store) : extends s s.
Proof. exists []. now rewrite app_nil_r. Qed.

Lemma extends_trans (s1 s2 s3 : Store) :
  extends s1 s2 -> extends s2 s3 -> extends s1 s3.
Proof.
  intros [m1 [H1 [C1 O1]]] [m2 [H2 [C2 O2]]].
  exists (m1 ++ m2). rewrite H2, H1, app_assoc. repeat split; congruence.
Qed.

Lemma extends_push (s : Store) (d : DataFrame) : extends s (push s d).
Proof. exists [d]. repeat split. Qed.

Lemma extends_frame_at (s s' : Store) (r : ref) (d : DataFrame) :
  extends s s' -> frame_at s r = Some d -> frame_at s' r = Some d.
Proof.
  intros [more [H _]] Hr. unfold frame_at in *. rewrite H.
  rewrite nth_error_app1; [assumption|].
  apply nth_error_Some. congruence.
Qed.

Lemma get_frame_run (s : Store) (r : ref) (d : DataFrame) :
  frame_at s r = Some d -> get_frame r s = (Ok d, s).
Proof. unfold frame_at, get_frame. now intros ->. Qed.

Lemma m_filter_eq_run (s : Store) (r : ref) (d : DataFrame) (l : string)
      (v : value) :
  frame_at s r = Some d ->
  m_filter_eq r l v s
  = match getitem d l with
    | Ok col =>
        (Ok (List.length (heap s)), push s (getitem_mask d (series_eq col v)))
    | Raise e => (Raise e, s)
    end.
Proof.
  intros H. unfold m_filter_eq, bind, lift. rewrite (get_frame_run s r d H).
  now destruct (getitem d l).
Qed.

Lemma m_copy_run (s : Store) (r : ref) (d : DataFrame) :
  frame_at s r = Some d -> m_copy r s = (Ok (List.length (heap s)), push s d).
Proof.
  intros H. unfold m_copy, bind. now rewrite (get_frame_run s r d H).
Qed.

Lemma m_rename_run (s : Store) (r : ref) (d : DataFrame)
      (m : list (string * string)) :
  frame_at s r = Some d ->
  m_rename r m s = (Ok (List.length (heap s)), push s (rename d m)).
Proof.
  intros H. unfold m_rename, bind. now rewrite (get_frame_run s r d H).
Qed.

Lemma m_sort_values_run (s : Store) (r : ref) (d : DataFrame)
      (by_ : list string) :
  frame_at s r = Some d ->
  m_sort_values r by_ s
  = match sort_values d by_ with
    | Ok sorted => (Ok (List.length (heap s)), push s sorted)
    | Raise e => (Raise e, s)
    end.
Proof.
  intros H. unfold m_sort_values, bind, lift.
  rewrite (get_frame_run s r d H). now destruct (sort_values d by_).
Qed.

Lemma m_reset_index_drop_run (s : Store) (r : ref) (d : DataFrame) :
  frame_at s r = Some d ->
  m_reset_index_drop r s
  = (Ok (List.length (heap s)), push s (reset_index_drop d)).
Proof.
  intros H. unfold m_reset_index_drop, bind.
  now rewrite (get_frame_run s r d H).
Qed.

(** [filtered_view] allocates and never writes; where it succeeds, the
    frame it returns holds [view_of] of the table. *)
Lemma filtered_view_run (s : Store) (r : ref) (d : DataFrame) (k : value) :
  frame_at s r = Some d ->
  exists s',
    extends s s'
    /\ match view_of d k with
       | Ok v =>
           exists a, filtered_view r k s = (Ok a, s')
                     /\ frame_at s' a = Some v
                     /\ List.length (heap s) <= a
       | Raise e => filtered_view r k s = (Raise e, s')
       end.
Proof.
  intros H. unfold filtered_view, view_of.
  destruct (negb (truthy k)).
  - eexists. split; [apply extends_push|].
    eexists. split; [reflexivity|].
    split; [apply frame_at_push_new | apply Nat.le_refl].
  - remember (filter_transform r k s) as run eqn:Hrun.
    unfold filter_transform in Hrun. unfold bind at 1 in Hrun.
    rewrite (m_filter_eq_run s r d _ _ H) in Hrun.
    destruct (getitem d EQUIPO) as [col|e]; cbn [rbind];
      [| exists s; split; [apply extends_refl | exact Hrun]].
    set (f1 := getitem_mask d (series_eq col k)) in *.
    set (s1 := push s f1) in *.
    unfold bind at 1 in Hrun.
    rewrite (m_copy_run s1 _ f1 (frame_at_push_new s f1)) in Hrun.
    set (s2 := push s1 f1) in *.
    unfold bind at 1 in Hrun.
    rewrite (m_rename_run s2 _ f1 _ (frame_at_push_new s1 f1)) in Hrun.
    set (f3 := rename f1 presentation_names) in *.
    set (s3 := push s2 f3) in *.
    unfold bind at 1 in Hrun.
    rewrite (m_sort_values_run s3 _ f3 _ (frame_at_push_new s2 f3)) in Hrun.
    assert (E3 : extends s s3).
    { repeat (eapply extends_trans; [|apply extends_push]).
      apply extends_refl. }
    destruct (sort_values f3 ["Resource"; "Start"]) as [sorted|e];
      cbn [rbind]; [| exists s3; split; [exact E3 | exact Hrun]].
    set (s4 := push s3 sorted) in *.
    rewrite (m_reset_index_drop_run s4 _ sorted (frame_at_push_new s3 sorted))
      in Hrun.
    eexists. split.
    + eapply extends_trans; [exact E3|].
      eapply extends_trans; apply extends_push.
    + eexists. split; [exact Hrun|].
      split; [apply frame_at_push_new|].
      unfold s4, s3, s2, s1, push. simpl. rewrite !length_app. lia.
Qed.

End Runs.

(* ================================================================== *)
(** ** The callback only allocates *)

Section Frame.

Lemma allocates_only_ret {A : Type} (a : A) : allocates_only (ret a).
Proof. intros s. apply extends_refl. Qed.

Lemma allocates_only_lift {A : Type} (r : result A) : allocates_only (lift r).
Proof. intros s. apply extends_refl. Qed.

Lemma allocates_only_get_frame (r : ref) : allocates_only (get_frame r).
Proof.
  intros s. unfold get_frame.
  destruct (nth_error (heap s) r); apply extends_refl.
Qed.

Lemma allocates_only_get_colors : allocates_only get_colors.
Proof. intros s. apply extends_refl. Qed.

Lemma allocates_only_new_frame (d : DataFrame) : allocates_only (new_frame d).
Proof. intros s. apply (extends_push s d). Qed.

Lemma allocates_only_bind {A B : Type} (m : M A) (f : A -> M B) :
  allocates_only m -> (forall a, allocates_only (f a)) ->
  allocates_only (bind m f).
Proof.
  intros Hm Hf s. unfold bind.
  specialize (Hm s). destruct (m s) as [[a|e] s1]; simpl in Hm.
  - eapply extends_trans; [exact Hm | apply Hf].
  - exact Hm.
Qed.

Ltac allocation :=
  repeat first
    [ apply allocates_only_ret
    | apply allocates_only_lift
    | apply allocates_only_get_frame
    | apply allocates_only_get_colors
    | apply allocates_only_new_frame
    | apply allocates_only_bind; [| intro] ].

Lemma allocates_only_filter_transform (r : ref) (k : value) :
  allocates_only (filter_transform r k).
Proof.
  unfold filter_transform, m_filter_eq, m_copy, m_rename, m_sort_values,
    m_reset_index_drop.
  allocation.
Qed.

Lemma allocates_only_build_chart (r : ref) (k : value) :
  allocates_only (build_chart r k).
Proof. unfold build_chart, px_timeline. cbv zeta. allocation. Qed.

Lemma allocates_only_update_gantt_chart (r : ref) (k : value) :
  allocates_only (update_gantt_chart r k).
Proof.
  unfold update_gantt_chart. destruct (negb (truthy k)).
  - unfold empty_view, px_timeline. allocation.
  - apply allocates_only_bind;
      [apply allocates_only_filter_transform
      | intro; apply allocates_only_build_chart].
Qed.

Lemma selection_events_extends (r : ref) (keys : list value) (s : Store) :
  extends s (snd (selection_events r keys s)).
Proof.
  revert s. induction keys as [|k keys IH]; intros s; simpl.
  - apply extends_refl.
  - pose proof (allocates_only_update_gantt_chart r k s) as H1.
    destruct (update_gantt_chart r k s) as [fig s1]. simpl in H1.
    specialize (IH s1).
    destruct (selection_events r keys s1) as [figs s2]. simpl in *.
    eapply extends_trans; eassumption.
Qed.

End Frame.

(* ================================================================== *)
(** ** Distinct values in the order they are first met *)

Section Unique.

Lemma unique_from_In (x : value) (seen col : list value) :
  In x (unique_from seen col) <-> In x col /\ ~ In x seen.
Proof.
  revert seen. induction col as [|c rest IH]; intros seen; simpl.
  - tauto.
  - unfold mem. destruct (in_dec value_eq_dec c seen) as [Hin|Hout].
    + rewrite IH. split.
      * tauto.
      * intros [[->|H] Hn]; [contradiction | tauto].
    + simpl. rewrite IH. simpl. split.
      * intros [->|[H Hn]]; [tauto|]. split; [tauto|]. tauto.
      * intros [[->|H] Hn]; [tauto|].
        destruct (value_eq_dec c x) as [->|Hne]; [tauto|]. right. tauto.
Qed.

Lemma unique_from_NoDup (seen col : list value) :
  NoDup (unique_from seen col).
Proof.
  revert seen. induction col as [|c rest IH]; intros seen; simpl.
  - constructor.
  - unfold mem. destruct (in_dec value_eq_dec c seen); [apply IH|].
    constructor; [|apply IH].
    rewrite unique_from_In. simpl. tauto.
Qed.

Lemma StronglySorted_In_impl {A : Type} (R R' : A -> A -> Prop)
      (l : list A) :
  (forall a b, In a l -> In b l -> R a b -> R' a b) ->
  StronglySorted R l -> StronglySorted R' l.
Proof.
  intros H Hs. induction Hs as [|x l Hs IH Hx]; constructor.
  - apply IH. intros a b Ha Hb. apply H; now right.
  - rewrite Forall_forall in *. intros y Hy.
    apply H; [now left | now right | now apply Hx].
Qed.

Lemma first_index_later (c x : value) (rest : list value) :
  x <> c -> first_index x (c :: rest) = S (first_index x rest).
Proof.
  intros H. simpl. destruct (value_eq_dec c x); congruence.
Qed.

(** The values [unique] keeps stand in the order of their first places in
    the column, also when the column was filtered before. *)
Lemma unique_from_first_index (p : value -> bool) (seen col : list value) :
  StronglySorted (fun x y => first_index x col < first_index y col)
    (unique_from seen (filter p col)).
Proof.
  revert seen. induction col as [|c rest IH]; intros seen.
  - constructor.
  - assert (T : forall seen',
               (forall e, In e (unique_from seen' (filter p rest)) -> e <> c) ->
               StronglySorted
                 (fun x y => first_index x (c :: rest)
                             < first_index y (c :: rest))
                 (unique_from seen' (filter p rest))).
    { intros seen' Hne.
      apply (StronglySorted_In_impl
               (fun x y => first_index x rest < first_index y rest));
        [|apply IH].
      intros a b Ha Hb Hab.
      rewrite !first_index_later by auto. lia. }
    cbn [filter]. destruct (p c) eqn:Hpc.
    + cbn [unique_from]. unfold mem.
      destruct (in_dec value_eq_dec c seen) as [Hin|Hout].
      * apply T. intros e He ->.
        apply unique_from_In in He. tauto.
      * assert (Hne : forall e,
                   In e (unique_from (c :: seen) (filter p rest)) -> e <> c).
        { intros e He ->. apply unique_from_In in He. simpl in He. tauto. }
        constructor; [now apply T|].
        rewrite Forall_forall. intros y Hy. cbv beta.
        rewrite (first_index_later c y) by auto.
        simpl. destruct (value_eq_dec c c); [lia | congruence].
    + apply T. intros e He ->.
      apply unique_from_In in He. destruct He as [He _].
      apply filter_In in He. destruct He as [_ He]. congruence.
Qed.

Lemma dropna_In (x : value) (col : list value) :
  In x (dropna col) <-> In x col /\ x <> Null.
Proof.
  unfold dropna. rewrite filter_In.
  destruct x; simpl; split; intros [H1 H2]; split; congruence.
Qed.

End Unique.

(* ================================================================== *)
(** ** The load step *)

Section Load.
Variable parse_datetime : string -> option Z.

Lemma to_datetime_value_raises (v : value) (e : exception) :
  to_datetime_value parse_datetime v = Raise e -> e = ValueError.
Proof.
  destruct v; simpl; try discriminate.
  destruct (parse_datetime s); [discriminate | congruence].
Qed.

Lemma to_datetime_unreadable (col : list value) :
  (exists v, In v col /\ unreadable parse_datetime v) ->
  to_datetime parse_datetime col = Raise ValueError.
Proof.
  induction col as [|c rest IH]; intros [v [Hin Hv]]; [contradiction|].
  simpl. destruct Hin as [->|Hin].
  - destruct Hv as [s [-> Hs]]. simpl. now rewrite Hs.
  - destruct (to_datetime_value parse_datetime c) as [t|e] eqn:Hc.
    + simpl. rewrite IH; [reflexivity | eauto].
    + simpl. now rewrite (to_datetime_value_raises c e Hc).
Qed.

Lemma to_datetime_raises (col : list value) (e : exception) :
  to_datetime parse_datetime col = Raise e -> e = ValueError.
Proof.
  induction col as [|c rest IH]; simpl; [discriminate|].
  destruct (to_datetime_value parse_datetime c) as [t|e'] eqn:Hc; simpl.
  - destruct (to_datetime parse_datetime rest); simpl;
      [discriminate | intros H; apply IH; congruence].
  - intros H. apply (to_datetime_value_raises c). congruence.
Qed.

Lemma position_nth_error (l : string) (labels : list string) (p : nat) :
  position l labels = Some p -> nth_error labels p = Some l.
Proof.
  revert p. induction labels as [|c rest IH]; intros p; simpl;
    [discriminate|].
  destruct (String.eqb_spec c l) as [->|Hne].
  - now intros [= <-].
  - destruct (position l rest) as [q|]; simpl; [|discriminate].
    intros [= <-]. simpl. now apply IH.
Qed.

Lemma cell_at_replace_at (p q : nat) (v : value) (cells : list value) :
  p <> q -> cell_at q (replace_at p v cells) = cell_at q cells.
Proof.
  unfold cell_at. revert p q.
  induction cells as [|c cells IH]; intros [|p] [|q] H; simpl;
    try reflexivity; try congruence.
  apply IH. congruence.
Qed.

(** Assigning one column leaves every other column as it was. *)
Lemma getitem_setitem_other (d : DataFrame) (l l' : string) (p : nat)
      (vs : list value) :
  position l (columns d) = Some p -> l <> l' ->
  getitem (setitem d l vs) l' = getitem d l'.
Proof.
  intros Hp Hne. unfold getitem, setitem. rewrite Hp. simpl.
  destruct (position l' (columns d)) as [q|] eqn:Hq; [|reflexivity].
  assert (Hpq : p <> q).
  { intros ->. apply position_nth_error in Hp, Hq. congruence. }
  f_equal. generalize (rows d) as rs. intros rs. revert vs.
  induction rs as [|r rs IH]; intros [|v vs]; simpl; try reflexivity.
  rewrite IH. f_equal. now apply cell_at_replace_at.
Qed.

Lemma nth_error_replace_at {A : Type} (p : nat) (x : A) (l : list A) :
  p < List.length l -> nth_error (replace_at p x l) p = Some x.
Proof.
  revert p. induction l as [|y l IH]; intros [|p]; simpl; try lia;
    [reflexivity|].
  intros H. apply IH. lia.
Qed.

Lemma parse_column_run (s : Store) (r : ref) (d : DataFrame) (l : string)
      (col : list value) :
  frame_at s r = Some d -> getitem d l = Ok col ->
  parse_column parse_datetime r l s
  = match to_datetime parse_datetime col with
    | Ok ts =>
        (Ok tt, mkStore (replace_at r (setitem d l ts) (heap s))
                  (prioridad_colors s) (stdout s))
    | Raise e => (Raise e, s)
    end.
Proof.
  intros Hr Hc. unfold parse_column, bind, lift.
  rewrite (get_frame_run s r d Hr), Hc.
  now destruct (to_datetime parse_datetime col).
Qed.

(** A file with a start or end cell the parser cannot read: the load step
    raises [ValueError] past the handler and prints nothing. *)
Lemma load_unreadable (s : Store) (d : DataFrame) (starts ends : list value) :
  getitem d start_time = Ok starts -> getitem d end_time = Ok ends ->
  (exists v, (In v starts \/ In v ends) /\ unreadable parse_datetime v) ->
  exists s', load parse_datetime (Some d) s = (Raise ValueError, s')
             /\ stdout s' = stdout s
             /\ prioridad_colors s' = prioridad_colors s.
Proof.
  intros Hs He [v [Hin Hv]].
  unfold load, try_except, read_csv.
  unfold bind at 1.
  change (new_frame d s) with (Ok (List.length (heap s)), push s d).
  unfold bind at 1.
  rewrite (parse_column_run (push s d) _ d start_time starts
             (frame_at_push_new s d) Hs).
  destruct (to_datetime parse_datetime starts) as [ts|e] eqn:Hts.
  - unfold bind at 1.
    assert (Hp : exists p, position start_time (columns d) = Some p).
    { unfold getitem in Hs.
      destruct (position start_time (columns d)); [eauto | discriminate]. }
    destruct Hp as [p Hp].
    erewrite parse_column_run; cycle 1.
    + unfold frame_at. simpl. apply nth_error_replace_at.
      rewrite length_app. simpl. lia.
    + rewrite (getitem_setitem_other d start_time end_time p ts Hp);
        [exact He | discriminate].
    + destruct Hin as [Hin|Hin].
      * rewrite to_datetime_unreadable in Hts; [discriminate | eauto].
      * rewrite to_datetime_unreadable; [|eauto].
        simpl. eexists. repeat split.
  - rewrite (to_datetime_raises starts e Hts). simpl.
    eexists. repeat split.
Qed.

(** Without the file the handler prints the message and puts an empty
    frame in place of the table. *)
Lemma load_missing (s : Store) :
  load parse_datetime None s
  = (Ok (List.length (heap s)),
     mkStore (heap s ++ [empty_frame]) (prioridad_colors s)
       (stdout s ++ [missing_file_message])).
Proof. reflexivity. Qed.

End Load.

(* ================================================================== *)
(** ** The figure *)

Section Chart.

(** A key that fails the truth test: the callback makes the empty frame
    and the timeline constructor, called without [x_start] and [x_end],
    raises. *)
Lemma update_gantt_chart_falsy (s : Store) (r : ref) (k : value) :
  truthy k = false ->
  update_gantt_chart r k s
  = (Raise ValueError, push s empty_plot_frame).
Proof.
  intros Hk. unfold update_gantt_chart. rewrite Hk. cbn [negb].
  unfold empty_view, bind.
  change (new_frame ?d s) with (Ok (List.length (heap s)), push s d).
  cbv iota beta. unfold px_timeline, bind.
  rewrite (get_frame_run _ _ _ (frame_at_push_new s _)).
  reflexivity.
Qed.

Lemma view_position (d v : DataFrame) (l : string) :
  activity_table d = true ->
  columns v = map (rename_label presentation_names) (columns d) ->
  In l source_columns ->
  exists p, position (rename_label presentation_names l) (columns v) = Some p
            /\ position l (columns d) = Some p.
Proof.
  intros Hd Hc Hl. destruct (source_position d l Hd Hl) as [p Hp].
  exists p. split; [|assumption].
  now rewrite Hc, renamed_position.
Qed.

(** On a view of an Activity Table the figure is made without error; a
    view without rows gives a figure without bars. *)
Lemma build_chart_run (s : Store) (a : ref) (d v : DataFrame) (k : value) :
  frame_at s a = Some v ->
  activity_table d = true ->
  columns v = map (rename_label presentation_names) (columns d) ->
  exists fig, build_chart a k s = (Ok fig, s)
              /\ (rows v = [] -> bar_count fig = 0).
Proof.
  intros Ha Hd Hc.
  assert (Hdist : distinct (columns v) = true)
    by (rewrite Hc; now apply distinct_renamed).
  destruct (view_position d v PERSONA Hd Hc) as [pR [HR _]];
    [vm_compute; tauto|].
  destruct (view_position d v start_time Hd Hc) as [pS [HS _]];
    [vm_compute; tauto|].
  destruct (view_position d v end_time Hd Hc) as [pF [HF _]];
    [vm_compute; tauto|].
  destruct (view_position d v ACTIVIDAD Hd Hc) as [pT [HT _]];
    [vm_compute; tauto|].
  destruct (view_position d v Prioridad Hd Hc) as [pP [HP _]];
    [vm_compute; tauto|].
  change (rename_label presentation_names PERSONA) with "Resource" in HR.
  change (rename_label presentation_names start_time) with "Start" in HS.
  change (rename_label presentation_names end_time) with "Finish" in HF.
  change (rename_label presentation_names ACTIVIDAD) with "Task" in HT.
  change (rename_label presentation_names Prioridad) with Prioridad in HP.
  unfold build_chart, bind, get_colors, px_timeline, bind, lift.
  rewrite (get_frame_run s a v Ha).
  unfold timeline, optional_column, column_arg, getitem_list.
  cbn [y color text x_start x_end color_discrete_map arg_title
       label_positions].
  rewrite Hdist, HR, HS, HF, HT, HP. cbn [rbind negb].
  rewrite (get_frame_run s a v Ha). cbn [rbind].
  rewrite ?HF, ?HP. cbn [rbind].
  eexists. split; [reflexivity|].
  intros Hrows. unfold data. rewrite Hrows. reflexivity.
Qed.

(** For an Activity Table and a key that passes the truth test the
    callback returns a figure made from the filtered view. *)
Lemma update_gantt_chart_truthy (s : Store) (r : ref) (d : DataFrame)
      (k : value) :
  frame_at s r = Some d -> activity_table d = true -> truthy k = true ->
  exists fig s' a v,
    update_gantt_chart r k s = (Ok fig, s')
    /\ filtered_view r k s = (Ok a, s')
    /\ frame_at s' a = Some v
    /\ view_of d k = Ok v
    /\ (rows v = [] -> bar_count fig = 0).
Proof.
  intros Hr Hd Hk.
  destruct (filtered_view_run s r d k Hr) as [s' [_ Hrun]].
  destruct (view_of_truthy d k Hd Hk)
    as [pE [pR [pS [v [_ [_ [_ [Hv [Hc _]]]]]]]]].
  rewrite Hv in Hrun. destruct Hrun as [a [Hrun [Ha _]]].
  destruct (build_chart_run s' a d v k Ha Hd Hc) as [fig [Hfig Hempty]].
  exists fig, s', a, v. repeat split; try assumption.
  unfold filtered_view in Hrun. unfold update_gantt_chart.
  rewrite Hk in *. cbn [negb] in *.
  unfold bind. now rewrite Hrun.
Qed.

End Chart.

(* ================================================================== *)
(** ** Filtering by equipment *)

Section Filtering.

Lemma count_occ_map_filter {A : Type} (g : A -> value) (k : value)
      (l : list A) :
  count_occ value_eq_dec (map g l) k
  = List.length
      (filter (fun x => if value_eq_dec (g x) k then true else false) l).
Proof.
  induction l as [|x l IH]; simpl; [reflexivity|].
  destruct (value_eq_dec (g x) k); simpl; now rewrite IH.
Qed.

Lemma field_position (d : DataFrame) (l : string) (p : nat)
      (cells : list value) :
  position l (columns d) = Some p -> field d l cells = cell_at p cells.
Proof. unfold field. now intros ->. Qed.

Lemma value_eqb_dec (c k : value) :
  k <> Null ->
  value_eqb c k = if value_eq_dec c k then true else false.
Proof.
  intros Hk. destruct (value_eq_dec c k) as [->|Hne].
  - now apply value_eqb_refl.
  - destruct (value_eqb c k) eqn:E; [|reflexivity].
    apply value_eqb_eq in E. contradiction.
Qed.

(** The view of an Activity Table under a key that passes the truth test:
    where its equipment column is, and what its rows are. *)
Lemma view_rows (s : Store) (r : ref) (d : DataFrame) (k : value) :
  frame_at s r = Some d -> activity_table d = true -> truthy k = true ->
  exists pE pR pS a s' v,
    position EQUIPO (columns d) = Some pE
    /\ position PERSONA (columns d) = Some pR
    /\ position start_time (columns d) = Some pS
    /\ filtered_view r k s = (Ok a, s')
    /\ frame_at s' a = Some v
    /\ columns v = map (rename_label presentation_names) (columns d)
    /\ data v
       = stable_sort (lex_leb [pR; pS])
           (filter (fun c => value_eqb (cell_at pE c) k) (data d)).
Proof.
  intros Hr Hd Hk.
  destruct (filtered_view_run s r d k Hr) as [s' [_ Hrun]].
  destruct (view_of_truthy d k Hd Hk)
    as [pE [pR [pS [v [HE [HR [HS [Hv [Hc Hdata]]]]]]]]].
  rewrite Hv in Hrun. destruct Hrun as [a [Hrun [Ha _]]].
  exists pE, pR, pS, a, s', v. repeat split; assumption.
Qed.

End Filtering.

(** C1, as amended: for every equipment key that is present in the
    Activity Table and passes the truth test of the callback (it is not
    the empty string and not zero), filtering the table by the key returns
    exactly the records whose EQUIPO cell equals the key, compared exactly
    and with case, and as many records as the EQUIPO column has cells
    equal to the key. *)
Theorem filter_exact_for_truthy_keys :
  forall (s : Store) (r : ref) (d : DataFrame) (col : list value)
         (k : value),
    frame_at s r = Some d ->
    activity_table d = true ->
    getitem d EQUIPO = Ok col ->
    In k col ->
    truthy k = true ->
    filter_exact s r k.
Proof.
  intros s r d col k Hr Hd Hcol _ Hk.
  destruct (view_rows s r d k Hr Hd Hk)
    as [pE [pR [pS [a [s' [v [HE [_ [_ [Hrun [Ha [Hc Hdata]]]]]]]]]]]].
  pose proof (truthy_not_null k Hk) as Hnn.
  assert (Hfilter :
            filter (fun c => value_eqb (cell_at pE c) k) (data d)
            = filter (fun cells =>
                        if value_eq_dec (field d EQUIPO cells) k
                        then true else false) (data d)).
  { apply filter_ext. intros c.
    rewrite (field_position d EQUIPO pE c HE). now apply value_eqb_dec. }
  assert (Hperm : Permutation (data v)
                    (filter (fun c => value_eqb (cell_at pE c) k) (data d))).
  { rewrite Hdata. apply stable_sort_perm. }
  exists d, col, a, s', v. repeat split; try assumption.
  - now rewrite <- Hfilter.
  - rewrite Forall_forall. intros cells Hin.
    apply (Permutation_in _ Hperm) in Hin.
    apply filter_In in Hin. destruct Hin as [_ Hin].
    apply value_eqb_eq in Hin.
    rewrite (field_position v EQUIPO pE); [assumption|].
    rewrite Hc.
    change EQUIPO with (rename_label presentation_names EQUIPO) at 1.
    rewrite renamed_position; [assumption | assumption | vm_compute; tauto].
  - unfold getitem in Hcol. rewrite HE in Hcol. injection Hcol as <-.
    transitivity (List.length (data v));
      [symmetry; apply length_map|].
    rewrite (Permutation_length Hperm), Hfilter.
    rewrite <- (map_map snd (cell_at pE)), count_occ_map_filter.
    fold (data d). f_equal. apply filter_ext. intros c.
    now rewrite (field_position d EQUIPO pE c HE).
Qed.

(** The amended C1 on the scenario table, for equipment A. *)
Lemma filter_exact_for_truthy_keys_witness :
  filter_exact scenario_store 0 (Str "A").
Proof.
  eapply (filter_exact_for_truthy_keys scenario_store 0 _ _ (Str "A")).
  - vm_compute. reflexivity.
  - vm_compute. reflexivity.
  - vm_compute. reflexivity.
  - left. reflexivity.
  - reflexivity.
Defined.

(** C1 as stated fails: in a table whose equipment column is numeric the
    key 0 is present, one row bears it, and filtering by it returns no
    row. *)
Lemma filter_exact_fails_on_zero :
  (exists d col,
      frame_at numbered_store 0 = Some d
      /\ activity_table d = true
      /\ getitem d EQUIPO = Ok col
      /\ In (Int 0) col)
  /\ ~ filter_exact numbered_store 0 (Int 0).
Proof.
  split.
  - eexists. eexists.
    split; [vm_compute; reflexivity|].
    split; [vm_compute; reflexivity|].
    split; [vm_compute; reflexivity|].
    left. reflexivity.
  - intros [d [col [a [s' [v [H1 [H2 [H3 [H4 [_ [_ H7]]]]]]]]]]].
    vm_compute in H1. injection H1 as <-.
    vm_compute in H2. injection H2 as <-.
    vm_compute in H3. injection H3 as <- <-.
    vm_compute in H4. injection H4 as <-.
    vm_compute in H7. discriminate.
Qed.

(* ================================================================== *)
(** ** The order of the filtered view *)

Section ViewOrder.

Lemma selects_falsy (d : DataFrame) (k : value) (l : list (list value)) :
  truthy k = false -> filter (selects d k) l = [].
Proof.
  intros Hk. induction l as [|c l IH]; simpl; [reflexivity|].
  unfold selects at 1. now rewrite Hk.
Qed.

Lemma filtered_view_falsy (s : Store) (r : ref) (k : value) :
  truthy k = false ->
  filtered_view r k s = (Ok (List.length (heap s)), push s empty_plot_frame)
  /\ frame_at (push s empty_plot_frame) (List.length (heap s))
     = Some empty_plot_frame.
Proof.
  intros Hk. unfold filtered_view. rewrite Hk.
  split; [reflexivity | apply frame_at_push_new].
Qed.

Lemma same_pair_eq (x y : value * value) : same_pair x y = true -> x = y.
Proof.
  destruct x as [x1 x2], y as [y1 y2]. unfold same_pair. simpl.
  destruct (value_eq_dec x1 y1), (value_eq_dec x2 y2);
    simpl; try discriminate. now subst.
Qed.

End ViewOrder.

(** C2: for every Activity Table and every key, the filtered view is
    sorted ascending by the pair (Resource, Start), missing values last,
    and the records that share a Resource and a Start stand in the order
    they have in the source table; on the two-row scenario table, for
    equipment A, the view is Ann's Repair and then Bob's Inspect. *)
Theorem filtered_view_sorted_and_stable :
  (forall (s : Store) (r : ref) (d : DataFrame) (k : value),
      frame_at s r = Some d ->
      activity_table d = true ->
      exists a s' v,
        filtered_view r k s = (Ok a, s')
        /\ frame_at s' a = Some v
        /\ StronglySorted
             (fun x y => pair_le (resource_start v x) (resource_start v y))
             (data v)
        /\ forall key,
            filter (fun c => same_pair (resource_start v c) key) (data v)
            = filter (fun c => same_pair (person_start d c) key)
                (filter (selects d k) (data d)))
  /\ exists a s',
      filtered_view 0 (Str "A") scenario_store = (Ok a, s')
      /\ option_map data (frame_at s' a)
         = Some [[Str "A"; Str "Repair"; Str "Ann"; Str "MEDIA";
                  Timestamp 28401660; Timestamp 28401780];
                 [Str "A"; Str "Inspect"; Str "Bob"; Str "ALTA";
                  Timestamp 28401600; Timestamp 28401720]].
Proof.
  split.
  - intros s r d k Hr Hd.
    destruct (truthy k) eqn:Hk.
    + destruct (view_rows s r d k Hr Hd Hk)
        as [pE [pR [pS [a [s' [v [HE [HR [HS [Hrun [Ha [Hc Hdata]]]]]]]]]]]].
      assert (HvR : position "Resource" (columns v) = Some pR).
      { rewrite Hc, <- HR.
        change "Resource" with (rename_label presentation_names PERSONA).
        apply renamed_position; [assumption | vm_compute; tauto]. }
      assert (HvS : position "Start" (columns v) = Some pS).
      { rewrite Hc, <- HS.
        change "Start" with (rename_label presentation_names start_time).
        apply renamed_position; [assumption | vm_compute; tauto]. }
      assert (Hkey : forall c,
                 resource_start v c = (cell_at pR c, cell_at pS c)).
      { intros c. unfold resource_start.
        now rewrite (field_position v _ pR c HvR),
                    (field_position v _ pS c HvS). }
      assert (Hsrc : forall c,
                 person_start d c = (cell_at pR c, cell_at pS c)).
      { intros c. unfold person_start.
        now rewrite (field_position d _ pR c HR),
                    (field_position d _ pS c HS). }
      assert (Hsel : filter (fun c => value_eqb (cell_at pE c) k) (data d)
                     = filter (selects d k) (data d)).
      { apply filter_ext. intros c. unfold selects.
        now rewrite Hk, (field_position d _ pE c HE). }
      exists a, s', v. repeat split; try assumption.
      * rewrite Hdata.
        apply (StronglySorted_impl
                 (fun x y => lex_leb [pR; pS] x y = true)).
        -- intros x y Hxy. rewrite !Hkey. now apply lex_leb_pair.
        -- apply stable_sort_sorted;
             [apply lex_leb_total | apply lex_leb_trans].
      * intros key. rewrite Hdata, stable_sort_filter.
        -- rewrite Hsel. apply filter_ext. intros c.
           now rewrite Hkey, Hsrc.
        -- intros x y Hx Hy.
           apply same_pair_eq in Hx, Hy. rewrite Hkey in Hx, Hy.
           apply lex_leb_same; congruence.
    + destruct (filtered_view_falsy s r k Hk) as [Hrun Ha].
      eexists. eexists. exists empty_plot_frame.
      split; [exact Hrun|]. split; [exact Ha|]. split.
      * constructor.
      * intros key. now rewrite (selects_falsy d k _ Hk).
  - eexists. eexists. split; vm_compute; reflexivity.
Qed.

(** C2 on the scenario table, for equipment A. *)
Lemma filtered_view_sorted_and_stable_witness :
  exists a s' v,
    filtered_view 0 (Str "A") scenario_store = (Ok a, s')
    /\ frame_at s' a = Some v
    /\ StronglySorted
         (fun x y => pair_le (resource_start v x) (resource_start v y))
         (data v)
    /\ forall key,
        filter (fun c => same_pair (resource_start v c) key) (data v)
        = filter (fun c => same_pair (person_start scenario_table c) key)
            (filter (selects scenario_table (Str "A")) (data scenario_table)).
Proof.
  apply (proj1 filtered_view_sorted_and_stable scenario_store 0
           scenario_table (Str "A")).
  - vm_compute. reflexivity.
  - vm_compute. reflexivity.
Defined.

(* ================================================================== *)
(** ** The renaming loses nothing *)

Section Renaming.

Lemma rename_label_back (c : string) :
  ~ presentation c ->
  rename_label source_names (rename_label presentation_names c) = c.
Proof.
  intros Hc. rewrite (rename_label_cases c).
  destruct (String.eqb_spec ACTIVIDAD c) as [<-|H1]; [reflexivity|].
  destruct (String.eqb_spec start_time c) as [<-|H2]; [reflexivity|].
  destruct (String.eqb_spec end_time c) as [<-|H3]; [reflexivity|].
  destruct (String.eqb_spec PERSONA c) as [<-|H4]; [reflexivity|].
  cbv beta iota fix delta [rename_label source_names presentation_names
                           assoc map fst snd].
  destruct (String.eqb_spec "Task" c) as [<-|_];
    [contradiction Hc; vm_compute; tauto|].
  destruct (String.eqb_spec "Start" c) as [<-|_];
    [contradiction Hc; vm_compute; tauto|].
  destruct (String.eqb_spec "Finish" c) as [<-|_];
    [contradiction Hc; vm_compute; tauto|].
  destruct (String.eqb_spec "Resource" c) as [<-|_];
    [contradiction Hc; vm_compute; tauto|].
  reflexivity.
Qed.

Lemma rename_back_columns (d v : DataFrame) :
  activity_table d = true ->
  columns v = map (rename_label presentation_names) (columns d) ->
  columns (rename v source_names) = columns d.
Proof.
  intros Hd Hc. unfold rename. cbn [columns].
  rewrite Hc, map_map.
  rewrite <- (map_id (columns d)) at 2.
  apply map_ext_in. intros c Hin.
  apply rename_label_back.
  now apply (activity_table_facts d Hd).
Qed.

Lemma view_field (d v : DataFrame) (l : string) (cells : list value) :
  activity_table d = true ->
  columns v = map (rename_label presentation_names) (columns d) ->
  In l source_columns ->
  field v (rename_label presentation_names l) cells = field d l cells.
Proof.
  intros Hd Hc Hl.
  destruct (view_position d v l Hd Hc Hl) as [p [Hv Hs]].
  now rewrite (field_position v _ p cells Hv), (field_position d _ p cells Hs).
Qed.

Lemma field_columns (d1 d2 : DataFrame) (l : string) (cells : list value) :
  columns d1 = columns d2 -> field d1 l cells = field d2 l cells.
Proof. unfold field. now intros ->. Qed.

End Renaming.

(** C7, as amended: for every Activity Table that has no column already
    named Task, Start, Finish or Resource, the renaming of the columns
    loses nothing and can be undone: renaming a frame with the labels of
    the table and renaming it back gives the frame again; the records of
    the filtered view are exactly the selected records of the table;
    every record of the view has the cells of a source record, its Task,
    Start, Finish and Resource are that record's task description, start
    timestamp, end timestamp and assigned person, and under the renaming
    read backwards the record gives the source fields again, the labels
    being those of the table. *)
Theorem rename_is_lossless :
  forall (s : Store) (r : ref) (d : DataFrame) (k : value),
    frame_at s r = Some d ->
    activity_table d = true ->
    rename_lossless s r d k.
Proof.
  intros s r d k Hr Hd. split.
  { intros [cols rws] Hf. cbn [columns] in Hf. subst cols.
    unfold rename. cbn [columns rows]. f_equal.
    rewrite map_map. rewrite <- (map_id (columns d)) at 2.
    apply map_ext_in. intros c Hin.
    apply rename_label_back.
    now apply (activity_table_facts d Hd). }
  destruct (truthy k) eqn:Hk.
  - destruct (view_rows s r d k Hr Hd Hk)
      as [pE [pR [pS [a [s' [v [HE [HR [HS [Hrun [Ha [Hc Hdata]]]]]]]]]]]].
    pose proof (rename_back_columns d v Hd Hc) as Hback.
    assert (Hsel : filter (fun c => value_eqb (cell_at pE c) k) (data d)
                   = filter (selects d k) (data d)).
    { apply filter_ext. intros c. unfold selects.
      now rewrite Hk, (field_position d _ pE c HE). }
    exists a, s', v.
    split; [exact Hrun|]. split; [exact Ha|].
    split; [rewrite Hdata, <- Hsel; apply stable_sort_perm|].
    split; [reflexivity|].
    split; [| intros _; exact Hback].
    rewrite Forall_forall. intros cells Hin.
    assert (Hsrc : In cells (data d)).
    { rewrite Hdata in Hin.
      apply (Permutation_in _ (stable_sort_perm _ _)) in Hin.
      now apply filter_In in Hin. }
    unfold traces_back. split; [assumption|].
    change "Task" with (rename_label presentation_names ACTIVIDAD).
    change "Start" with (rename_label presentation_names start_time).
    change "Finish" with (rename_label presentation_names end_time).
    change "Resource" with (rename_label presentation_names PERSONA).
    rewrite !(view_field d v) by (assumption || (vm_compute; tauto)).
    rewrite !(field_columns (rename v source_names) d) by exact Hback.
    repeat split; reflexivity.
  - destruct (filtered_view_falsy s r k Hk) as [Hrun Ha].
    eexists. eexists. exists empty_plot_frame.
    split; [exact Hrun|]. split; [exact Ha|].
    split; [rewrite (selects_falsy d k _ Hk); constructor|].
    split; [reflexivity|]. split; [constructor | discriminate].
Qed.

(** The amended C7 on the scenario table, for equipment A. *)
Lemma rename_is_lossless_witness :
  rename_lossless scenario_store 0 scenario_table (Str "A").
Proof.
  apply (rename_is_lossless scenario_store 0 scenario_table (Str "A")).
  - vm_compute. reflexivity.
  - vm_compute. reflexivity.
Defined.

(** C7 as stated fails: a table that has the six columns under labels
    that differ from one another, and besides them a column named Task,
    is filtered and renamed without an error; the view then has two
    columns named Task, the Task of its record is the cell of the other
    column and not the task description, and the renaming read backwards
    gives two columns with the label of the task description instead of
    the labels of the table. *)
Lemma rename_loses_labels_on_clash :
  (frame_at clash_store 0 = Some clash_table
   /\ distinct (columns clash_table) = true
   /\ forallb (fun l => has_label l (columns clash_table)) source_columns
      = true)
  /\ (exists a s' v,
         filtered_view 0 (Str "A") clash_store = (Ok a, s')
         /\ frame_at s' a = Some v
         /\ count_label "Task" (columns v) = 2
         /\ map (fun cells => field v "Task" cells) (data v) = [Str "spare"]
         /\ map (fun cells => field clash_table ACTIVIDAD cells) (data v)
            = [Str "Inspect"]
         /\ count_label ACTIVIDAD (columns (rename v source_names)) = 2)
  /\ ~ rename_lossless clash_store 0 clash_table (Str "A").
Proof.
  split; [|split].
  - split; [vm_compute; reflexivity|].
    split; vm_compute; reflexivity.
  - eexists. eexists. eexists.
    split; [vm_compute; reflexivity|].
    split; [vm_compute; reflexivity|].
    split; [vm_compute; reflexivity|].
    split; [vm_compute; reflexivity|].
    split; vm_compute; reflexivity.
  - intros [_ [a [s' [v [H1 [H2 [_ [_ [_ H6]]]]]]]]].
    vm_compute in H1. injection H1 as <- <-.
    vm_compute in H2. injection H2 as <-.
    specialize (H6 eq_refl). vm_compute in H6. discriminate.
Qed.

(* ================================================================== *)
(** ** The dropdown *)

(** C8: the option list of the dropdown is the distinct, non-missing
    equipment identifiers of the Activity Table in the order they are
    first met, each offered as label and as value; the first value of the
    dropdown is the first of them, and none when there is none. *)
Theorem dropdown_options_first_seen :
  forall (s : Store) (r : ref) (d : DataFrame) (col : list value),
    frame_at s r = Some d ->
    getitem d EQUIPO = Ok col ->
    exists dash,
      make_layout r s = (Ok dash, s)
      /\ unique_equipos dash = map snd (dropdown_options dash)
      /\ map fst (dropdown_options dash) = map snd (dropdown_options dash)
      /\ NoDup (map snd (dropdown_options dash))
      /\ (forall x, In x (map snd (dropdown_options dash))
                    <-> In x col /\ x <> Null)
      /\ StronglySorted (fun x y => first_index x col < first_index y col)
           (map snd (dropdown_options dash))
      /\ dropdown_value dash = hd Null (map snd (dropdown_options dash)).
Proof.
  intros s r d col Hr Hcol.
  unfold make_layout, bind, lift.
  rewrite (get_frame_run s r d Hr), Hcol.
  eexists. split; [reflexivity|]. cbn [unique_equipos dropdown_options
                                       dropdown_value].
  rewrite !map_map. cbn [fst snd]. rewrite map_id.
  split; [reflexivity|]. split; [reflexivity|].
  split; [apply unique_from_NoDup|].
  split; [| split].
  - intros x. unfold unique. rewrite unique_from_In, dropna_In.
    simpl. tauto.
  - apply unique_from_first_index.
  - now destruct (unique (dropna col)).
Qed.

(** C8 on the scenario table. *)
Lemma dropdown_options_first_seen_witness :
  exists dash,
    make_layout 0 scenario_store = (Ok dash, scenario_store)
    /\ unique_equipos dash = map snd (dropdown_options dash)
    /\ map fst (dropdown_options dash) = map snd (dropdown_options dash)
    /\ NoDup (map snd (dropdown_options dash))
    /\ (forall x, In x (map snd (dropdown_options dash))
                  <-> In x [Str "A"; Str "A"] /\ x <> Null)
    /\ StronglySorted
         (fun x y => first_index x [Str "A"; Str "A"]
                     < first_index y [Str "A"; Str "A"])
         (map snd (dropdown_options dash))
    /\ dropdown_value dash = hd Null (map snd (dropdown_options dash)).
Proof.
  apply (dropdown_options_first_seen scenario_store 0 scenario_table
           [Str "A"; Str "A"]).
  - vm_compute. reflexivity.
  - vm_compute. reflexivity.
Defined.

(* ================================================================== *)
(** ** Selection events and the shared objects *)

(** C9: no selection event changes a shared object: after any run of
    selection events, and so after any single one, the Activity Table is
    the frame it was and the colour dictionary is what it was; the
    filtered view is a new object, never the table itself. *)
Theorem selection_leaves_shared_state :
  forall (s : Store) (r : ref) (d : DataFrame) (keys : list value),
    frame_at s r = Some d ->
    (frame_at (snd (selection_events r keys s)) r = Some d
     /\ prioridad_colors (snd (selection_events r keys s))
        = prioridad_colors s)
    /\ (forall k,
           frame_at (snd (update_gantt_chart r k s)) r = Some d
           /\ prioridad_colors (snd (update_gantt_chart r k s))
              = prioridad_colors s)
    /\ (forall k a s', filtered_view r k s = (Ok a, s') -> a <> r).
Proof.
  intros s r d keys Hr. repeat split.
  - eapply extends_frame_at; [apply selection_events_extends | exact Hr].
  - destruct (selection_events_extends r keys s) as [_ [_ [H _]]]. exact H.
  - eapply extends_frame_at;
      [apply allocates_only_update_gantt_chart | exact Hr].
  - destruct (allocates_only_update_gantt_chart r k s) as [_ [_ [H _]]].
    exact H.
  - intros k a s' Hrun Har.
    destruct (filtered_view_run s r d k Hr) as [s1 [_ H]].
    rewrite Hrun in H.
    destruct (view_of d k).
    + destruct H as [a' [Ha [_ Hle]]]. injection Ha as Ha _.
      assert (r < List.length (heap s)); [|lia].
      apply nth_error_Some. unfold frame_at in Hr. congruence.
    + discriminate.
Qed.

(** C9 on the scenario table: three selections, the last of a key that
    fails the truth test. *)
Lemma selection_leaves_shared_state_witness :
  (frame_at (snd (selection_events 0 [Str "A"; Str "Z"; Null]
                    scenario_store)) 0 = Some scenario_table
   /\ prioridad_colors (snd (selection_events 0 [Str "A"; Str "Z"; Null]
                               scenario_store))
      = prioridad_colors scenario_store)
  /\ (forall k,
         frame_at (snd (update_gantt_chart 0 k scenario_store)) 0
         = Some scenario_table
         /\ prioridad_colors (snd (update_gantt_chart 0 k scenario_store))
            = prioridad_colors scenario_store)
  /\ (forall k a s',
         filtered_view 0 k scenario_store = (Ok a, s') -> a <> 0).
Proof.
  apply (selection_leaves_shared_state scenario_store 0 scenario_table
           [Str "A"; Str "Z"; Null]).
  vm_compute. reflexivity.
Defined.

(* ================================================================== *)
(** ** Start-up without the file, and with a malformed one *)

(** C3, what the code does: without the file the load step does recover
    (it prints the message and puts an empty frame in place of the table),
    but the next statement looks up the EQUIPO column of that frame, which
    has no columns, and start-up ends with [KeyError]. *)
Theorem startup_without_file_raises :
  forall (parse_datetime : string -> option Z) (s : Store),
    load parse_datetime None s
    = (Ok (List.length (heap s)),
       mkStore (heap s ++ [empty_frame]) (prioridad_colors s)
         (stdout s ++ [missing_file_message]))
    /\ startup parse_datetime None s
       = (Raise (KeyError EQUIPO),
          mkStore (heap s ++ [empty_frame]) prioridad_colors_literal
            (stdout s ++ [missing_file_message])).
Proof.
  intros parse_datetime s. split; [reflexivity|].
  unfold startup, bind, set_colors. rewrite load_missing. cbn [heap].
  unfold make_layout, bind, get_frame. cbn [heap].
  rewrite nth_error_app2, Nat.sub_diag by lia. reflexivity.
Qed.

(** C4: when the file is there and a cell of its start or end column
    cannot be read as a timestamp, the load step raises [ValueError]; the
    handler of the missing file does not catch it, nothing is printed, no
    table comes out of the load step, and start-up ends with the same
    error. *)
Theorem load_fails_on_unreadable_timestamp :
  forall (parse_datetime : string -> option Z) (s : Store) (d : DataFrame)
         (starts ends : list value),
    getitem d start_time = Ok starts ->
    getitem d end_time = Ok ends ->
    (exists v, (In v starts \/ In v ends) /\ unreadable parse_datetime v) ->
    is_FileNotFoundError ValueError = false
    /\ (exists s', load parse_datetime (Some d) s = (Raise ValueError, s')
                   /\ stdout s' = stdout s)
    /\ (exists s', startup parse_datetime (Some d) s = (Raise ValueError, s')
                   /\ stdout s' = stdout s).
Proof.
  intros parse_datetime s d starts ends Hs He Hbad.
  split; [reflexivity|]. split.
  - destruct (load_unreadable parse_datetime s d starts ends Hs He Hbad)
      as [s' [Hrun [Hout _]]].
    now exists s'.
  - unfold startup, bind, set_colors.
    destruct (load_unreadable parse_datetime
                (mkStore (heap s) prioridad_colors_literal (stdout s))
                d starts ends Hs He Hbad) as [s' [Hrun [Hout _]]].
    rewrite Hrun. now exists s'.
Qed.

(** C4 on a file whose one end cell reads "soon". *)
Lemma load_fails_on_unreadable_timestamp_witness :
  is_FileNotFoundError ValueError = false
  /\ (exists s', load Iso.parse_minutes (Some malformed_file) initial_store
                 = (Raise ValueError, s')
                 /\ stdout s' = stdout initial_store)
  /\ (exists s', startup Iso.parse_minutes (Some malformed_file) initial_store
                 = (Raise ValueError, s')
                 /\ stdout s' = stdout initial_store).
Proof.
  apply (load_fails_on_unreadable_timestamp Iso.parse_minutes initial_store
           malformed_file [Str "2024-01-01T08:00"] [Str "soon"]).
  - reflexivity.
  - reflexivity.
  - exists (Str "soon"). split.
    + right. left. reflexivity.
    + exists "soon". split; reflexivity.
Defined.

(* ================================================================== *)
(** ** Empty selections and unknown keys *)

(** C5, what the code does: for the key [None] and for the empty string
    the callback makes a frame without rows and hands it to the timeline
    constructor without [x_start] and [x_end]; the constructor raises
    [ValueError], and no figure is returned. *)
Theorem empty_selection_raises :
  forall (s : Store) (r : ref),
    filtered_view r Null s
    = (Ok (List.length (heap s)), push s empty_plot_frame)
    /\ filtered_view r (Str "") s
       = (Ok (List.length (heap s)), push s empty_plot_frame)
    /\ rows empty_plot_frame = []
    /\ timeline empty_plot_frame no_args = Raise ValueError
    /\ update_gantt_chart r Null s
       = (Raise ValueError, push s empty_plot_frame)
    /\ update_gantt_chart r (Str "") s
       = (Raise ValueError, push s empty_plot_frame).
Proof.
  intros s r. repeat split; try reflexivity;
    now apply update_gantt_chart_falsy.
Qed.

Lemma filter_none {A : Type} (f : A -> bool) (l : list A) :
  (forall x, In x l -> f x = false) -> filter f l = [].
Proof.
  induction l as [|x l IH]; intros H; simpl; [reflexivity|].
  rewrite (H x) by now left. apply IH. intros y Hy. apply H. now right.
Qed.

(** C6, what the code does: for a key that passes the truth test and
    matches no record of an Activity Table, the filtered view has no rows
    and the callback returns a figure without bars, whatever its traces
    are; the empty selection, at the same table, returns no figure but
    raises. *)
Theorem unknown_key_gives_empty_chart :
  forall (s : Store) (r : ref) (d : DataFrame) (k : value),
    frame_at s r = Some d ->
    activity_table d = true ->
    truthy k = true ->
    (forall cells, In cells (data d) -> field d EQUIPO cells <> k) ->
    (exists fig s' a v,
        update_gantt_chart r k s = (Ok fig, s')
        /\ filtered_view r k s = (Ok a, s')
        /\ frame_at s' a = Some v
        /\ rows v = []
        /\ bar_count fig = 0)
    /\ fst (update_gantt_chart r Null s) = Raise ValueError
    /\ fst (update_gantt_chart r (Str "") s) = Raise ValueError.
Proof.
  intros s r d k Hr Hd Hk Hnone. split.
  - destruct (update_gantt_chart_truthy s r d k Hr Hd Hk)
      as [fig [s' [a [v [Hfig [Hrun [Ha [Hv Hempty]]]]]]]].
    destruct (view_of_truthy d k Hd Hk)
      as [pE [pR [pS [v' [HE [_ [_ [Hv' [_ Hdata]]]]]]]]].
    assert (v' = v) by congruence. subst v'.
    assert (Hrows : rows v = []).
    { apply (map_eq_nil snd). fold (data v). rewrite Hdata.
      rewrite filter_none; [reflexivity|].
      intros c Hc. destruct (value_eqb (cell_at pE c) k) eqn:E;
        [|reflexivity].
      apply value_eqb_eq in E. contradiction (Hnone c Hc).
      now rewrite (field_position d EQUIPO pE c HE). }
    exists fig, s', a, v. repeat split; try assumption.
    now apply Hempty.
  - now rewrite !update_gantt_chart_falsy.
Qed.

(** C6 on the scenario table, for the key Z. *)
Lemma unknown_key_gives_empty_chart_witness :
  (exists fig s' a v,
      update_gantt_chart 0 (Str "Z") scenario_store = (Ok fig, s')
      /\ filtered_view 0 (Str "Z") scenario_store = (Ok a, s')
      /\ frame_at s' a = Some v
      /\ rows v = []
      /\ bar_count fig = 0)
  /\ fst (update_gantt_chart 0 Null scenario_store) = Raise ValueError
  /\ fst (update_gantt_chart 0 (Str "") scenario_store) = Raise ValueError.
Proof.
  apply (unknown_key_gives_empty_chart scenario_store 0 scenario_table
           (Str "Z")).
  - vm_compute. reflexivity.
  - vm_compute. reflexivity.
  - reflexivity.
  - intros cells [<-|[<-|[]]]; vm_compute; discriminate.
Defined.

(** C10, what the code does: a key that fails the truth test takes the
    early exit whatever the table holds: the outcome and the store left
    are the same for every table, and a record whose equipment identifier
    fails the truth test is selected by no key at all; the outcome of the
    early exit is the [ValueError] of the timeline constructor, not an
    empty figure. *)
Theorem falsy_key_takes_early_exit :
  forall (k : value),
    truthy k = false ->
    (forall (r : ref) (s : Store),
        update_gantt_chart r k s
        = (Raise ValueError, push s empty_plot_frame)
        /\ filtered_view r k s
           = (Ok (List.length (heap s)), push s empty_plot_frame))
    /\ (forall (d : DataFrame) (cells : list value) (k' : value),
           field d EQUIPO cells = k -> selects d k' cells = false).
Proof.
  intros k Hk. split.
  - intros r s. split.
    + now apply update_gantt_chart_falsy.
    + now apply filtered_view_falsy.
  - intros d cells k' He. unfold selects. rewrite He.
    destruct (truthy k') eqn:Hk'; [|reflexivity]. simpl.
    destruct (value_eqb k k') eqn:E; [|reflexivity].
    apply value_eqb_eq in E. congruence.
Qed.

(** C10 for the key 0. *)
Lemma falsy_key_takes_early_exit_witness :
  (forall (r : ref) (s : Store),
      update_gantt_chart r (Int 0) s
      = (Raise ValueError, push s empty_plot_frame)
      /\ filtered_view r (Int 0) s
         = (Ok (List.length (heap s)), push s empty_plot_frame))
  /\ (forall (d : DataFrame) (cells : list value) (k' : value),
         field d EQUIPO cells = Int 0 -> selects d k' cells = false).
Proof.
  apply (falsy_key_takes_early_exit (Int 0)). reflexivity.
Defined.

(* ================================================================== *)
(** ** The script on the example files *)

(** Start-up on the scenario file: the table is loaded, one equipment is
    offered and it is the first value of the dropdown. *)
Example startup_scenario :
  startup Iso.parse_minutes (Some scenario_file) initial_store
  = (Ok (mkDashboard 0 [Str "A"] [(Str "A", Str "A")] (Str "A")),
     mkStore [scenario_table] prioridad_colors_literal [loaded_message]).
Proof. vm_compute. reflexivity. Qed.

(** The figure for equipment A has one bar for each of the two records. *)
Example scenario_chart_bars :
  match fst (update_gantt_chart 0 (Str "A") scenario_store) with
  | Ok fig => bar_count fig
  | Raise _ => 0
  end = 2.
Proof. vm_compute. reflexivity. Qed.

(** The comparison with the key distinguishes case: the key a selects no
    record of equipment A. *)
Example filter_distinguishes_case :
  value_eqb (Str "A") (Str "a") = false
  /\ view_of scenario_table (Str "a")
     = Ok (mkDataFrame ["EQUIPO"; "Task"; "Resource"; "Prioridad"; "Start";
                        "Finish"] []).
Proof. split; vm_compute; reflexivity. Qed.

(** Start-up on the file with numbered equipment: 0 and 1 are offered and
    0 is the first value of the dropdown; the callback, called with it,
    takes the early exit. *)
Example startup_numbered :
  fst (startup Iso.parse_minutes (Some numbered_file) initial_store)
  = Ok (mkDashboard 0 [Int 0; Int 1] [(Int 0, Int 0); (Int 1, Int 1)]
          (Int 0))
  /\ fst (update_gantt_chart 0 (Int 0) numbered_store) = Raise ValueError
  /\ match fst (update_gantt_chart 0 (Int 1) numbered_store) with
     | Ok fig => bar_count fig
     | Raise _ => 0
     end = 1.
Proof. repeat split; vm_compute; reflexivity. Qed.

(* ================================================================== *)
(** ** The load step on a well-formed file *)

Section LoadSuccess.
Variable parse_datetime : string -> option Z.

Lemma to_datetime_value_converted (v t : value) :
  to_datetime_value parse_datetime v = Ok t -> timestamp_or_missing t = true.
Proof.
  destruct v as [|str|n|u]; simpl; try (now intros [= <-]).
  destruct (parse_datetime str); [now intros [= <-] | discriminate].
Qed.

(** A conversion that succeeds gives as many cells as it was given, each
    a timestamp or a missing value. *)
Lemma to_datetime_converted (col ts : list value) :
  to_datetime parse_datetime col = Ok ts ->
  List.length ts = List.length col
  /\ Forall (fun v => timestamp_or_missing v = true) ts.
Proof.
  revert ts. induction col as [|c rest IH]; intros ts; simpl.
  - intros [= <-]. split; [reflexivity | constructor].
  - destruct (to_datetime_value parse_datetime c) as [t|] eqn:Hc;
      [|discriminate]. simpl.
    destruct (to_datetime parse_datetime rest) as [ts'|];
      [|discriminate]. simpl.
    intros [= <-]. destruct (IH ts' eq_refl) as [Hlen Hall].
    split; [simpl; now rewrite Hlen|].
    constructor; [now apply (to_datetime_value_converted c) | exact Hall].
Qed.

Lemma position_bound (l : string) (labels : list string) (p : nat) :
  position l labels = Some p -> p < List.length labels.
Proof.
  intros H. apply nth_error_Some.
  rewrite (position_nth_error l labels p H). discriminate.
Qed.

Lemma cell_at_replace_at_same (p : nat) (v : value) (cells : list value) :
  p < List.length cells -> cell_at p (replace_at p v cells) = v.
Proof.
  unfold cell_at. revert p.
  induction cells as [|c cells IH]; intros [|p] H; simpl in *; try lia.
  - reflexivity.
  - apply IH. lia.
Qed.

Lemma length_replace_at {A : Type} (p : nat) (x : A) (l : list A) :
  List.length (replace_at p x l) = List.length l.
Proof.
  revert p. induction l as [|y l IH]; intros [|p]; simpl; auto.
Qed.

Lemma replace_at_last {A : Type} (x y : A) (l : list A) :
  replace_at (List.length l) x (l ++ [y]) = l ++ [x].
Proof. induction l as [|z l IH]; simpl; [reflexivity | now rewrite IH]. Qed.

Lemma rectangular_rows (d : DataFrame) (r : Row) :
  rectangular d = true -> In r (rows d) ->
  List.length (snd r) = List.length (columns d).
Proof.
  unfold rectangular. rewrite forallb_forall. intros H Hr.
  now apply Nat.eqb_eq, H.
Qed.

(** Assigning a column of a rectangular frame: the labels of columns and
    rows stay, the frame stays rectangular and the column reads back as
    what was assigned. *)
Lemma setitem_column (d : DataFrame) (l : string) (p : nat)
      (vs : list value) :
  position l (columns d) = Some p ->
  rectangular d = true ->
  List.length vs = List.length (rows d) ->
  columns (setitem d l vs) = columns d
  /\ map fst (rows (setitem d l vs)) = map fst (rows d)
  /\ rectangular (setitem d l vs) = true
  /\ getitem (setitem d l vs) l = Ok vs.
Proof.
  intros Hp Hrect Hlen.
  pose proof (position_bound l (columns d) p Hp) as Hb.
  unfold getitem, setitem, rectangular. rewrite Hp. cbn [columns rows].
  rewrite Hp.
  assert (Hrows : forall r, In r (rows d) ->
                            List.length (snd r) = List.length (columns d)).
  { intros r. now apply rectangular_rows. }
  revert vs Hlen Hrows. generalize (rows d) as rs.
  induction rs as [|r rs IH]; intros [|v vs] Hlen Hrows;
    simpl in Hlen; try discriminate.
  - repeat split.
  - destruct (IH vs) as [_ [Hf [Hr Hg]]];
      [congruence | intros r' Hr'; apply Hrows; now right |].
    repeat split.
    + simpl. now rewrite Hf.
    + simpl. rewrite length_replace_at, (Hrows r) by now left.
      now rewrite Nat.eqb_refl.
    + simpl. injection Hg as Hg. rewrite Hg.
      rewrite cell_at_replace_at_same; [reflexivity|].
      rewrite (Hrows r) by now left. exact Hb.
Qed.

Lemma getitem_length (d : DataFrame) (l : string) (col : list value) :
  getitem d l = Ok col -> List.length col = List.length (rows d).
Proof.
  unfold getitem. destruct (position l (columns d)); [|discriminate].
  intros [= <-]. apply length_map.
Qed.

Lemma getitem_position (d : DataFrame) (l : string) (col : list value) :
  getitem d l = Ok col -> exists p, position l (columns d) = Some p.
Proof.
  unfold getitem. destruct (position l (columns d)); [eauto | discriminate].
Qed.

(** The load step on a file whose two timestamp columns can be read. *)
Lemma load_run (s : Store) (d : DataFrame) (starts ends ts te : list value) :
  getitem d start_time = Ok starts ->
  getitem d end_time = Ok ends ->
  to_datetime parse_datetime starts = Ok ts ->
  to_datetime parse_datetime ends = Ok te ->
  load parse_datetime (Some d) s
  = (Ok (List.length (heap s)),
     mkStore (heap s ++ [setitem (setitem d start_time ts) end_time te])
       (prioridad_colors s) (stdout s ++ [loaded_message])).
Proof.
  intros Hs He Hts Hte.
  destruct (getitem_position d _ _ Hs) as [p Hp].
  unfold load, try_except, read_csv.
  unfold bind at 1.
  change (new_frame d s) with (Ok (List.length (heap s)), push s d).
  unfold bind at 1.
  rewrite (parse_column_run parse_datetime (push s d) _ d start_time starts
             (frame_at_push_new s d) Hs), Hts.
  unfold bind at 1.
  erewrite parse_column_run; cycle 1.
  - unfold frame_at. cbn [heap push]. apply nth_error_replace_at.
    rewrite length_app. simpl. lia.
  - rewrite (getitem_setitem_other d start_time end_time p ts Hp);
      [exact He | discriminate].
  - rewrite Hte. cbn [heap push prioridad_colors stdout].
    rewrite !replace_at_last. reflexivity.
Qed.

End LoadSuccess.

(** The load step on a file whose two conversions succeed, in full. *)
Lemma load_converted :
  forall (parse_datetime : string -> option Z) (s : Store) (d : DataFrame)
         (starts ends ts te : list value),
    rectangular d = true ->
    getitem d start_time = Ok starts ->
    getitem d end_time = Ok ends ->
    to_datetime parse_datetime starts = Ok ts ->
    to_datetime parse_datetime ends = Ok te ->
    exists s' t,
      load parse_datetime (Some d) s = (Ok (List.length (heap s)), s')
      /\ frame_at s' (List.length (heap s)) = Some t
      /\ stdout s' = stdout s ++ [loaded_message]
      /\ prioridad_colors s' = prioridad_colors s
      /\ heap s' = heap s ++ [t]
      /\ columns t = columns d
      /\ map fst (rows t) = map fst (rows d)
      /\ rectangular t = true
      /\ getitem t start_time = Ok ts
      /\ getitem t end_time = Ok te
      /\ Forall (fun v => timestamp_or_missing v = true) (ts ++ te)
      /\ (forall l, l <> start_time -> l <> end_time ->
                    getitem t l = getitem d l).
Proof.
  intros parse_datetime s d starts ends ts te Hrect Hs He Hts Hte.
  destruct (to_datetime_converted parse_datetime starts ts Hts) as [Lts Ats].
  destruct (to_datetime_converted parse_datetime ends te Hte) as [Lte Ate].
  destruct (getitem_position d _ _ Hs) as [p Hp].
  destruct (getitem_position d _ _ He) as [q Hq].
  rewrite (getitem_length d _ _ Hs) in Lts.
  rewrite (getitem_length d _ _ He) in Lte.
  destruct (setitem_column d start_time p ts Hp Hrect Lts)
    as [C1 [F1 [R1 G1]]].
  set (d1 := setitem d start_time ts) in *.
  assert (Hq1 : position end_time (columns d1) = Some q) by now rewrite C1.
  assert (Lte1 : List.length te = List.length (rows d1)).
  { pose proof (f_equal (@List.length nat) F1) as E.
    rewrite !length_map in E. rewrite Lte. symmetry. exact E. }
  destruct (setitem_column d1 end_time q te Hq1 R1 Lte1)
    as [C2 [F2 [R2 G2]]].
  eexists. exists (setitem d1 end_time te).
  split; [apply (load_run parse_datetime s d starts ends ts te);
          assumption|].
  split; [unfold frame_at; cbn [heap];
          now rewrite nth_error_app2, Nat.sub_diag by lia|].
  split; [reflexivity|]. split; [reflexivity|]. split; [reflexivity|].
  split; [now rewrite C2|]. split; [now rewrite F2|].
  split; [exact R2|].
  split.
  { rewrite (getitem_setitem_other d1 end_time start_time q te Hq1);
      [exact G1 | discriminate]. }
  split; [exact G2|].
  split; [apply Forall_app; now split|].
  intros l H1 H2.
  rewrite (getitem_setitem_other d1 end_time l q te Hq1) by congruence.
  apply (getitem_setitem_other d start_time l p ts Hp). congruence.
Qed.

(** X1: when the file is there, its frame is rectangular and the
    conversions of its start and end columns succeed, the load step
    returns the table as a new object and prints the success message
    once; the table has the labels of the file, its two timestamp columns
    hold the converted cells (timestamps or missing values) and every
    other column is as in the file; the objects that were in the store
    are untouched. *)
Theorem load_converts_timestamps :
  forall (parse_datetime : string -> option Z) (s : Store) (d : DataFrame)
         (starts ends ts te : list value),
    rectangular d = true ->
    getitem d start_time = Ok starts ->
    getitem d end_time = Ok ends ->
    to_datetime parse_datetime starts = Ok ts ->
    to_datetime parse_datetime ends = Ok te ->
    exists s' t,
      load parse_datetime (Some d) s = (Ok (List.length (heap s)), s')
      /\ frame_at s' (List.length (heap s)) = Some t
      /\ stdout s' = stdout s ++ [loaded_message]
      /\ prioridad_colors s' = prioridad_colors s
      /\ heap s' = heap s ++ [t]
      /\ columns t = columns d
      /\ map fst (rows t) = map fst (rows d)
      /\ rectangular t = true
      /\ getitem t start_time = Ok ts
      /\ getitem t end_time = Ok te
      /\ Forall (fun v => timestamp_or_missing v = true) (ts ++ te)
      /\ (forall l, l <> start_time -> l <> end_time ->
                    getitem t l = getitem d l).
Proof. exact load_converted. Qed.

(** X1 on the scenario file. *)
Lemma load_converts_timestamps_witness :
  exists s' t,
    load Iso.parse_minutes (Some scenario_file) initial_store
    = (Ok (List.length (heap initial_store)), s')
    /\ frame_at s' (List.length (heap initial_store)) = Some t
    /\ stdout s' = stdout initial_store ++ [loaded_message]
    /\ prioridad_colors s' = prioridad_colors initial_store
    /\ heap s' = heap initial_store ++ [t]
    /\ columns t = columns scenario_file
    /\ map fst (rows t) = map fst (rows scenario_file)
    /\ rectangular t = true
    /\ getitem t start_time
       = Ok [Timestamp 28401600; Timestamp 28401660]
    /\ getitem t end_time
       = Ok [Timestamp 28401720; Timestamp 28401780]
    /\ Forall (fun v => timestamp_or_missing v = true)
         ([Timestamp 28401600; Timestamp 28401660]
          ++ [Timestamp 28401720; Timestamp 28401780])
    /\ (forall l, l <> start_time -> l <> end_time ->
                  getitem t l = getitem scenario_file l).
Proof.
  apply (load_converts_timestamps Iso.parse_minutes initial_store
           scenario_file
           [Str "2024-01-01T08:00"; Str "2024-01-01T09:00"]
           [Str "2024-01-01T10:00"; Str "2024-01-01T11:00"]).
  - reflexivity.
  - reflexivity.
  - reflexivity.
  - vm_compute. reflexivity.
  - vm_compute. reflexivity.
Defined.

(* ================================================================== *)
(** ** Files that lack a column *)

Section MissingColumns.
Variable parse_datetime : string -> option Z.

Lemma getitem_missing (d : DataFrame) (l : string) :
  position l (columns d) = None -> getitem d l = Raise (KeyError l).
Proof. unfold getitem. now intros ->. Qed.

Lemma parse_column_missing (s : Store) (r : ref) (d : DataFrame)
      (l : string) :
  frame_at s r = Some d -> position l (columns d) = None ->
  parse_column parse_datetime r l s = (Raise (KeyError l), s).
Proof.
  intros Hr Hl. unfold parse_column, bind, lift.
  now rewrite (get_frame_run s r d Hr), (getitem_missing d l Hl).
Qed.

Lemma load_missing_start (s : Store) (d : DataFrame) :
  position start_time (columns d) = None ->
  load parse_datetime (Some d) s = (Raise (KeyError start_time), push s d).
Proof.
  intros H. unfold load, try_except, read_csv.
  unfold bind at 1.
  change (new_frame d s) with (Ok (List.length (heap s)), push s d).
  unfold bind at 1.
  now rewrite (parse_column_missing (push s d) _ d start_time
                 (frame_at_push_new s d) H).
Qed.

Lemma load_missing_end (s : Store) (d : DataFrame) (starts ts : list value) :
  getitem d start_time = Ok starts ->
  to_datetime parse_datetime starts = Ok ts ->
  position end_time (columns d) = None ->
  load parse_datetime (Some d) s
  = (Raise (KeyError end_time), push s (setitem d start_time ts)).
Proof.
  intros Hs Hts He.
  destruct (getitem_position d _ _ Hs) as [p Hp].
  unfold load, try_except, read_csv.
  unfold bind at 1.
  change (new_frame d s) with (Ok (List.length (heap s)), push s d).
  unfold bind at 1.
  rewrite (parse_column_run parse_datetime (push s d) _ d start_time starts
             (frame_at_push_new s d) Hs), Hts.
  unfold bind at 1.
  erewrite parse_column_missing; cycle 1.
  - unfold frame_at. cbn [heap push]. apply nth_error_replace_at.
    rewrite length_app. simpl. lia.
  - unfold setitem. rewrite Hp. exact He.
  - cbn [heap push]. rewrite replace_at_last. reflexivity.
Qed.

End MissingColumns.

(** X2: when the file is there but has no start column, or has a readable
    start column and no end column, the load step raises [KeyError] for
    the missing label; the handler of the missing file does not catch it,
    nothing is printed, and start-up ends with the same error. *)
Theorem load_fails_on_missing_time_column :
  forall (parse_datetime : string -> option Z) (s : Store) (d : DataFrame)
         (l : string),
    (l = start_time /\ position start_time (columns d) = None)
    \/ (l = end_time /\ position end_time (columns d) = None
        /\ exists starts ts,
             getitem d start_time = Ok starts
             /\ to_datetime parse_datetime starts = Ok ts) ->
    is_FileNotFoundError (KeyError l) = false
    /\ (exists s', load parse_datetime (Some d) s = (Raise (KeyError l), s')
                   /\ stdout s' = stdout s)
    /\ (exists s', startup parse_datetime (Some d) s
                   = (Raise (KeyError l), s')
                   /\ stdout s' = stdout s).
Proof.
  intros parse_datetime s d l H. split; [reflexivity|].
  assert (Hload : forall s0, exists s',
               load parse_datetime (Some d) s0 = (Raise (KeyError l), s')
               /\ stdout s' = stdout s0).
  { intros s0.
    destruct H as [[-> H]|[-> [H [starts [ts [Hs Hts]]]]]].
    - rewrite (load_missing_start parse_datetime s0 d H). now eexists.
    - rewrite (load_missing_end parse_datetime s0 d starts ts Hs Hts H).
      now eexists. }
  split; [apply Hload|].
  unfold startup, bind, set_colors.
  destruct (Hload (mkStore (heap s) prioridad_colors_literal (stdout s)))
    as [s' [Hrun Hout]].
  rewrite Hrun. now exists s'.
Qed.

(** X2 on a file that has a start column and no end column. *)
Lemma load_fails_on_missing_time_column_witness :
  is_FileNotFoundError (KeyError end_time) = false
  /\ (exists s',
         load Iso.parse_minutes
           (Some (mkDataFrame [EQUIPO; start_time]
                    [(0, [Str "A"; Str "2024-01-01T08:00"])]))
           initial_store = (Raise (KeyError end_time), s')
         /\ stdout s' = stdout initial_store)
  /\ (exists s',
         startup Iso.parse_minutes
           (Some (mkDataFrame [EQUIPO; start_time]
                    [(0, [Str "A"; Str "2024-01-01T08:00"])]))
           initial_store = (Raise (KeyError end_time), s')
         /\ stdout s' = stdout initial_store).
Proof.
  apply (load_fails_on_missing_time_column Iso.parse_minutes initial_store
           (mkDataFrame [EQUIPO; start_time]
              [(0, [Str "A"; Str "2024-01-01T08:00"])]) end_time).
  right. split; [reflexivity|]. split; [reflexivity|].
  eexists. eexists. split; [reflexivity | vm_compute; reflexivity].
Defined.

(* ================================================================== *)
(** ** Start-up on a well-formed file *)

Section StartupSuccess.
Variable parse_datetime : string -> option Z.

Lemma make_layout_run (s : Store) (r : ref) (d : DataFrame) :
  frame_at s r = Some d ->
  make_layout r s
  = match getitem d EQUIPO with
    | Ok col =>
        (Ok (mkDashboard r (unique (dropna col))
               (map (fun e => (e, e)) (unique (dropna col)))
               (hd Null (unique (dropna col)))), s)
    | Raise e => (Raise e, s)
    end.
Proof.
  intros Hr. unfold make_layout, bind, lift.
  rewrite (get_frame_run s r d Hr).
  destruct (getitem d EQUIPO) as [col|e]; [|reflexivity].
  cbv beta iota zeta. unfold ret. now destruct (unique (dropna col)).
Qed.

(** Start-up on a file whose two conversions succeed, with what the
    look-up of the equipment column then gives. *)
Lemma startup_converted (s : Store) (d : DataFrame)
      (starts ends ts te : list value) :
  rectangular d = true ->
  getitem d start_time = Ok starts ->
  getitem d end_time = Ok ends ->
  to_datetime parse_datetime starts = Ok ts ->
  to_datetime parse_datetime ends = Ok te ->
  exists s' t,
    frame_at s' (List.length (heap s)) = Some t
    /\ heap s' = heap s ++ [t]
    /\ prioridad_colors s' = prioridad_colors_literal
    /\ stdout s' = stdout s ++ [loaded_message]
    /\ columns t = columns d
    /\ getitem t EQUIPO = getitem d EQUIPO
    /\ startup parse_datetime (Some d) s
       = match getitem d EQUIPO with
         | Ok col =>
             (Ok (mkDashboard (List.length (heap s)) (unique (dropna col))
                    (map (fun e => (e, e)) (unique (dropna col)))
                    (hd Null (unique (dropna col)))), s')
         | Raise e => (Raise e, s')
         end.
Proof.
  intros Hrect Hs He Hts Hte.
  destruct (load_converted parse_datetime
              (mkStore (heap s) prioridad_colors_literal (stdout s))
              d starts ends ts te Hrect Hs He Hts Hte)
    as [s' [t [Hrun [Ht [Hout [Hcol [Hheap [Hc [_ [_ [_ [_ [_
         Hother]]]]]]]]]]]]].
  cbn [heap stdout prioridad_colors] in *.
  assert (HE : getitem t EQUIPO = getitem d EQUIPO)
    by (apply Hother; discriminate).
  exists s', t. repeat (split; [assumption|]).
  unfold startup, bind, set_colors. rewrite Hrun.
  now rewrite (make_layout_run s' _ t Ht), HE.
Qed.

End StartupSuccess.

(** X3: start-up on a file that is there, is rectangular, has start and
    end columns whose conversions succeed and an equipment column comes
    to its end: the table is a new object with the labels of the file,
    the colour dictionary is the one of line 9, the success message is
    printed once, and the dropdown offers the distinct non-missing
    equipment cells of the file in the order they are first met, each as
    label and as value, the first of them being selected, or nothing when
    there is none. *)
Theorem startup_builds_dashboard :
  forall (parse_datetime : string -> option Z) (s : Store) (d : DataFrame)
         (starts ends ts te col : list value),
    rectangular d = true ->
    getitem d start_time = Ok starts ->
    getitem d end_time = Ok ends ->
    to_datetime parse_datetime starts = Ok ts ->
    to_datetime parse_datetime ends = Ok te ->
    getitem d EQUIPO = Ok col ->
    exists s' t,
      startup parse_datetime (Some d) s
      = (Ok (mkDashboard (List.length (heap s)) (unique (dropna col))
               (map (fun e => (e, e)) (unique (dropna col)))
               (hd Null (unique (dropna col)))), s')
      /\ frame_at s' (List.length (heap s)) = Some t
      /\ heap s' = heap s ++ [t]
      /\ prioridad_colors s' = prioridad_colors_literal
      /\ stdout s' = stdout s ++ [loaded_message]
      /\ columns t = columns d
      /\ activity_table t = activity_table d.
Proof.
  intros parse_datetime s d starts ends ts te col Hrect Hs He Hts Hte Hcol.
  destruct (startup_converted parse_datetime s d starts ends ts te
              Hrect Hs He Hts Hte)
    as [s' [t [Ht [Hheap [Hcolors [Hout [Hc [_ Hrun]]]]]]]].
  rewrite Hcol in Hrun.
  exists s', t. repeat (split; [assumption|]).
  unfold activity_table. now rewrite Hc.
Qed.

(** X3 on the scenario file. *)
Lemma startup_builds_dashboard_witness :
  exists s' t,
    startup Iso.parse_minutes (Some scenario_file) initial_store
    = (Ok (mkDashboard (List.length (heap initial_store))
             (unique (dropna [Str "A"; Str "A"]))
             (map (fun e => (e, e)) (unique (dropna [Str "A"; Str "A"])))
             (hd Null (unique (dropna [Str "A"; Str "A"])))), s')
    /\ frame_at s' (List.length (heap initial_store)) = Some t
    /\ heap s' = heap initial_store ++ [t]
    /\ prioridad_colors s' = prioridad_colors_literal
    /\ stdout s' = stdout initial_store ++ [loaded_message]
    /\ columns t = columns scenario_file
    /\ activity_table t = activity_table scenario_file.
Proof.
  apply (startup_builds_dashboard Iso.parse_minutes initial_store
           scenario_file
           [Str "2024-01-01T08:00"; Str "2024-01-01T09:00"]
           [Str "2024-01-01T10:00"; Str "2024-01-01T11:00"]
           [Timestamp 28401600; Timestamp 28401660]
           [Timestamp 28401720; Timestamp 28401780]
           [Str "A"; Str "A"]).
  - reflexivity.
  - reflexivity.
  - reflexivity.
  - vm_compute. reflexivity.
  - vm_compute. reflexivity.
  - reflexivity.
Defined.

(** X4: start-up on a file that is there and loads (the conversions of
    its start and end columns succeed) but has no equipment column
    prints the success message and then ends with [KeyError] at the
    look-up of line 33: no dashboard is built. *)
Theorem startup_fails_without_equipment_column :
  forall (parse_datetime : string -> option Z) (s : Store) (d : DataFrame)
         (starts ends ts te : list value),
    rectangular d = true ->
    getitem d start_time = Ok starts ->
    getitem d end_time = Ok ends ->
    to_datetime parse_datetime starts = Ok ts ->
    to_datetime parse_datetime ends = Ok te ->
    position EQUIPO (columns d) = None ->
    exists s',
      startup parse_datetime (Some d) s = (Raise (KeyError EQUIPO), s')
      /\ stdout s' = stdout s ++ [loaded_message].
Proof.
  intros parse_datetime s d starts ends ts te Hrect Hs He Hts Hte Hno.
  destruct (startup_converted parse_datetime s d starts ends ts te
              Hrect Hs He Hts Hte)
    as [s' [t [_ [_ [_ [Hout [_ [_ Hrun]]]]]]]].
  rewrite (getitem_missing d EQUIPO Hno) in Hrun.
  now exists s'.
Qed.

(** X4 on a file with the two timestamp columns only. *)
Lemma startup_fails_without_equipment_column_witness :
  exists s',
    startup Iso.parse_minutes
      (Some (mkDataFrame [start_time; end_time]
               [(0, [Str "2024-01-01T08:00"; Str "2024-01-01T10:00"])]))
      initial_store = (Raise (KeyError EQUIPO), s')
    /\ stdout s' = stdout initial_store ++ [loaded_message].
Proof.
  apply (startup_fails_without_equipment_column Iso.parse_minutes
           initial_store
           (mkDataFrame [start_time; end_time]
              [(0, [Str "2024-01-01T08:00"; Str "2024-01-01T10:00"])])
           [Str "2024-01-01T08:00"] [Str "2024-01-01T10:00"]
           [Timestamp 28401600] [Timestamp 28401720]).
  - reflexivity.
  - reflexivity.
  - reflexivity.
  - vm_compute. reflexivity.
  - vm_compute. reflexivity.
  - reflexivity.
Defined.

(* ================================================================== *)
(** ** The outcome of the callback as a function of the table *)

Section Outcome.

Lemma build_chart_pure (s : Store) (a : ref) (v : DataFrame) (k : value) :
  frame_at s a = Some v ->
  build_chart a k s = (chart_of_view v (prioridad_colors s) k, s).
Proof.
  intros Ha. unfold build_chart, chart_of_view, chart_args.
  unfold bind at 1. unfold get_colors.
  unfold bind at 1. unfold px_timeline, bind, lift.
  rewrite (get_frame_run s a v Ha).
  destruct (timeline v _) as [fig|e]; [|reflexivity].
  cbn [rbind]. rewrite (get_frame_run s a v Ha).
  destruct (getitem_list v ["Finish"; Prioridad]); reflexivity.
Qed.

Lemma extends_colors (s s' : Store) :
  extends s s' -> prioridad_colors s' = prioridad_colors s.
Proof. now intros [_ [_ [H _]]]. Qed.

(** The outcome of the callback is fixed by what is at the address of the
    table, the colour dictionary and the key. *)
Lemma update_gantt_chart_pure (s : Store) (r : ref) (k : value) :
  fst (update_gantt_chart r k s)
  = figure_of (frame_at s r) (prioridad_colors s) k.
Proof.
  unfold figure_of. destruct (truthy k) eqn:Hk; cbn [negb].
  - destruct (frame_at s r) as [d|] eqn:Hr.
    + destruct (filtered_view_run s r d k Hr) as [s' [Hext Hrun]].
      unfold filtered_view in Hrun. unfold update_gantt_chart.
      rewrite Hk in *. cbn [negb] in *. unfold bind.
      destruct (view_of d k) as [v|e].
      * destruct Hrun as [a [Hrun [Ha _]]]. rewrite Hrun.
        rewrite (build_chart_pure s' a v k Ha). cbn [fst rbind].
        now rewrite (extends_colors s s' Hext).
      * now rewrite Hrun.
    + unfold update_gantt_chart. rewrite Hk. cbn [negb].
      unfold bind, filter_transform, bind, m_filter_eq, bind, get_frame.
      unfold frame_at in Hr. now rewrite Hr.
  - now rewrite (update_gantt_chart_falsy s r k Hk).
Qed.

Lemma decorate_traces (fig : Figure) (custom : list (list value)) :
  traces (decorate fig custom)
  = map (fun t => mkTrace (trace_name t) (marker_color t) (bars t)
                    (Some "inside") (Some hover_text) (Some custom))
      (traces fig).
Proof.
  unfold decorate, update_layout, update_traces_hover,
    update_traces_textposition, update_yaxes.
  cbn [traces]. now rewrite map_map.
Qed.

(** The figure the callback returns for an Activity Table and a key that
    passes the truth test, written out. *)
Lemma chart_structure (s : Store) (r : ref) (d : DataFrame) (k : value) :
  frame_at s r = Some d -> activity_table d = true -> truthy k = true ->
  exists fig s' a v pE pS pF pR pT pP,
    update_gantt_chart r k s = (Ok fig, s')
    /\ filtered_view r k s = (Ok a, s')
    /\ frame_at s' a = Some v
    /\ (position EQUIPO (columns d) = Some pE
        /\ position start_time (columns d) = Some pS
        /\ position end_time (columns d) = Some pF
        /\ position PERSONA (columns d) = Some pR
        /\ position ACTIVIDAD (columns d) = Some pT
        /\ position Prioridad (columns d) = Some pP)
    /\ columns v = map (rename_label presentation_names) (columns d)
    /\ data v
       = stable_sort (lex_leb [pR; pS])
           (filter (fun c => value_eqb (cell_at pE c) k) (data d))
    /\ traces fig
       = map (finished (map (fun c => [cell_at pF c; cell_at pP c])
                          (data v)))
           (view_traces (prioridad_colors s) pS pF pR pT pP (data v))
    /\ layout fig
       = mkLayout (Some [Str "Gantt Chart para "; k; Str " (por Persona)"])
           (Some "total ascending") (Some "closest") (Some "Tiempo")
           (Some "Persona Asignada") (Some "Prioridad")
           (Some (0, 0, 50, 0)%Z).
Proof.
  intros Hr Hd Hk.
  destruct (update_gantt_chart_truthy s r d k Hr Hd Hk)
    as [fig [s' [a [v [Hfig [Hrun [Ha [Hv _]]]]]]]].
  destruct (view_of_truthy d k Hd Hk)
    as [pE [pR [pS [v' [HE [HR [HS [Hv' [Hc Hdata]]]]]]]]].
  assert (v' = v) by congruence. subst v'.
  destruct (view_position d v end_time Hd Hc) as [pF [HvF HF]];
    [vm_compute; tauto|].
  destruct (view_position d v ACTIVIDAD Hd Hc) as [pT [HvT HT]];
    [vm_compute; tauto|].
  destruct (view_position d v Prioridad Hd Hc) as [pP [HvP HP]];
    [vm_compute; tauto|].
  destruct (view_position d v PERSONA Hd Hc) as [pR' [HvR HR']];
    [vm_compute; tauto|].
  destruct (view_position d v start_time Hd Hc) as [pS' [HvS HS']];
    [vm_compute; tauto|].
  assert (pR' = pR) by congruence. assert (pS' = pS) by congruence.
  subst pR' pS'.
  change (rename_label presentation_names PERSONA) with "Resource" in HvR.
  change (rename_label presentation_names start_time) with "Start" in HvS.
  change (rename_label presentation_names end_time) with "Finish" in HvF.
  change (rename_label presentation_names ACTIVIDAD) with "Task" in HvT.
  change (rename_label presentation_names Prioridad) with Prioridad in HvP.
  pose proof (update_gantt_chart_pure s r k) as Hpure.
  rewrite Hfig, Hr in Hpure. cbn [fst] in Hpure.
  unfold figure_of in Hpure. rewrite Hk, Hv in Hpure.
  cbn [negb rbind] in Hpure.
  unfold chart_of_view, timeline, chart_args, optional_column, column_arg,
    getitem_list in Hpure.
  cbn [y color text x_start x_end color_discrete_map arg_title
       label_positions] in Hpure.
  assert (Hdist : distinct (columns v) = true)
    by (rewrite Hc; now apply distinct_renamed).
  rewrite Hdist, HvR, HvS, HvF, HvT, HvP in Hpure.
  cbn [rbind negb] in Hpure.
  injection Hpure as Hpure.
  exists fig, s', a, v, pE, pS, pF, pR, pT, pP.
  split; [exact Hfig|]. split; [exact Hrun|]. split; [exact Ha|].
  split; [tauto|]. split; [exact Hc|]. split; [exact Hdata|].
  rewrite Hpure. split.
  - rewrite decorate_traces. cbn [traces optional_cell].
    unfold data. rewrite (map_map snd (fun c => [cell_at pF c; cell_at pP c])).
    reflexivity.
  - reflexivity.
Qed.

End Outcome.

(* ================================================================== *)
(** ** What the figure shows *)

Section FigureContent.

Lemma view_member (d v : DataFrame) (k : value) (pE pR pS : nat)
      (cells : list value) :
  data v
  = stable_sort (lex_leb [pR; pS])
      (filter (fun c => value_eqb (cell_at pE c) k) (data d)) ->
  In cells (data v)
  <-> In cells (data d) /\ value_eqb (cell_at pE cells) k = true.
Proof.
  intros Hdata. rewrite Hdata. split.
  - intros H. apply (Permutation_in _ (stable_sort_perm _ _)) in H.
    now apply filter_In in H.
  - intros H.
    apply (Permutation_in _ (Permutation_sym (stable_sort_perm _ _))).
    now apply filter_In.
Qed.

Lemma dec_true (a b : value) :
  (if value_eq_dec a b then true else false) = true <-> a = b.
Proof. destruct (value_eq_dec a b); split; congruence. Qed.

Lemma text_column_not_continuous {A : Type} (f : A -> value) (l : list A) :
  (forall c, In c l -> exists p, f c = Str p) ->
  is_continuous (map f l) = false.
Proof.
  destruct l as [|c l]; [reflexivity|]. intros H.
  destruct (H c) as [p Hp]; [now left|].
  simpl. now rewrite Hp.
Qed.

(** With text priorities the colour is not continuous: the traces are
    the colour groups. *)
Lemma text_view_traces (d v : DataFrame) (k : value) (pE pR pS pP : nat)
      (colors : list (string * string)) (pF pT : nat) :
  position EQUIPO (columns d) = Some pE ->
  position Prioridad (columns d) = Some pP ->
  data v
  = stable_sort (lex_leb [pR; pS])
      (filter (fun c => value_eqb (cell_at pE c) k) (data d)) ->
  text_priorities d k ->
  view_traces colors pS pF pR pT pP (data v)
  = map (fun g =>
           mkTrace g (discrete_color colors g)
             (map (view_bar pS pF pR pT)
                (filter (fun c => if value_eq_dec (cell_at pP c) g
                                  then true else false) (data v)))
             None None None)
      (unique (dropna (map (cell_at pP) (data v)))).
Proof.
  intros HE HP Hdata Htext. unfold view_traces.
  rewrite text_column_not_continuous; [reflexivity|].
  intros c Hc. apply (view_member d v k pE pR pS c Hdata) in Hc.
  destruct Hc as [Hc Hk]. apply value_eqb_eq in Hk.
  destruct (Htext c Hc) as [p Hp];
    [now rewrite (field_position d _ pE c HE)|].
  exists p. now rewrite <- (field_position d _ pP c HP).
Qed.

End FigureContent.

(** X5: for an Activity Table and a key that passes the truth test and
    selects at least one record, when the priorities of the selected
    records are texts, the callback returns a figure in which no two
    traces have the same name, every trace is named by a priority, has
    the colour the colour dictionary gives that priority when it gives
    one (the colour of a priority outside the dictionary is left to the
    library), and has at least one bar, and every bar is the start,
    length, person and activity of a record of the table whose equipment
    is the key and whose priority is the name of the trace. *)
Theorem chart_bars_are_selected_records :
  forall (s : Store) (r : ref) (d : DataFrame) (k : value),
    frame_at s r = Some d ->
    activity_table d = true ->
    truthy k = true ->
    (exists cells, In cells (data d) /\ field d EQUIPO cells = k) ->
    text_priorities d k ->
    exists fig s',
      update_gantt_chart r k s = (Ok fig, s')
      /\ NoDup (map trace_name (traces fig))
      /\ forall t,
          In t (traces fig) ->
          (exists p,
              trace_name t = Str p
              /\ forall c, assoc p (prioridad_colors s) = Some c ->
                           marker_color t = Some c)
          /\ bars t <> []
          /\ forall b,
              In b (bars t) ->
              exists cells,
                In cells (data d)
                /\ field d EQUIPO cells = k
                /\ field d Prioridad cells = trace_name t
                /\ b = bar_of_record d cells.
Proof.
  intros s r d k Hr Hd Hk _ Htext.
  destruct (chart_structure s r d k Hr Hd Hk)
    as [fig [s' [a [v [pE [pS [pF [pR [pT [pP
         [Hfig [_ [_ [Hpos [_ [Hdata [Htr _]]]]]]]]]]]]]]]]].
  destruct Hpos as [HE [HS [HF [HR [HT HP]]]]].
  pose proof (text_view_traces d v k pE pR pS pP (prioridad_colors s)
                pF pT HE HP Hdata Htext) as Hvt.
  exists fig, s'. split; [exact Hfig|]. rewrite Htr, Hvt. split.
  - rewrite !map_map. unfold finished. cbn [trace_name].
    rewrite map_id. apply unique_from_NoDup.
  - intros t Ht. apply in_map_iff in Ht. destruct Ht as [t0 [<- Ht0]].
    apply in_map_iff in Ht0. destruct Ht0 as [g [<- Hg]].
    unfold finished. cbn [trace_name marker_color bars].
    apply unique_from_In in Hg. destruct Hg as [Hg _].
    apply dropna_In in Hg. destruct Hg as [Hg Hnn].
    apply in_map_iff in Hg. destruct Hg as [c0 [Hc0 Hin0]].
    pose proof Hin0 as Hsel.
    apply (view_member d v k pE pR pS c0 Hdata) in Hsel.
    destruct Hsel as [Hsrc0 Hk0]. apply value_eqb_eq in Hk0.
    destruct (Htext c0 Hsrc0) as [p Hp];
      [now rewrite (field_position d _ pE c0 HE)|].
    rewrite (field_position d _ pP c0 HP), Hc0 in Hp.
    split; [exists p; split; [exact Hp|]; intros c Hcol;
            now rewrite Hp|].
    split.
    + intros Hnil.
      assert (Hb : In c0 (filter (fun c => if value_eq_dec (cell_at pP c) g
                                           then true else false) (data v))).
      { apply filter_In. split; [exact Hin0 | now apply dec_true]. }
      destruct (filter _ (data v)); [contradiction | discriminate].
    + intros b Hb. apply in_map_iff in Hb. destruct Hb as [c [<- Hc]].
      apply filter_In in Hc. destruct Hc as [Hc Hpc]. apply dec_true in Hpc.
      apply (view_member d v k pE pR pS c Hdata) in Hc.
      destruct Hc as [Hc Hk']. apply value_eqb_eq in Hk'.
      exists c. unfold bar_of_record, view_bar.
      rewrite (field_position d _ pE c HE), (field_position d _ pP c HP),
        (field_position d _ pS c HS), (field_position d _ pF c HF),
        (field_position d _ pR c HR), (field_position d _ pT c HT).
      repeat split; assumption.
Qed.

(** X5 on the scenario table, for equipment A. *)
Lemma chart_bars_are_selected_records_witness :
  exists fig s',
    update_gantt_chart 0 (Str "A") scenario_store = (Ok fig, s')
    /\ NoDup (map trace_name (traces fig))
    /\ forall t,
        In t (traces fig) ->
        (exists p,
            trace_name t = Str p
            /\ forall c, assoc p (prioridad_colors scenario_store) = Some c ->
                         marker_color t = Some c)
        /\ bars t <> []
        /\ forall b,
            In b (bars t) ->
            exists cells,
              In cells (data scenario_table)
              /\ field scenario_table EQUIPO cells = Str "A"
              /\ field scenario_table Prioridad cells = trace_name t
              /\ b = bar_of_record scenario_table cells.
Proof.
  apply (chart_bars_are_selected_records scenario_store 0 scenario_table
           (Str "A")).
  - vm_compute. reflexivity.
  - vm_compute. reflexivity.
  - reflexivity.
  - eexists. split; [left; reflexivity | vm_compute; reflexivity].
  - intros cells [<-|[<-|[]]] _; eexists; vm_compute; reflexivity.
Defined.

(** X6: for an Activity Table and a key that passes the truth test, when
    the priorities of the selected records are texts, every record of the
    table whose equipment is the key has its bar in the figure, in the
    trace named by its priority. *)
Theorem selected_records_have_bars :
  forall (s : Store) (r : ref) (d : DataFrame) (k : value),
    frame_at s r = Some d ->
    activity_table d = true ->
    truthy k = true ->
    text_priorities d k ->
    exists fig s',
      update_gantt_chart r k s = (Ok fig, s')
      /\ forall cells,
          In cells (data d) ->
          field d EQUIPO cells = k ->
          exists t,
            In t (traces fig)
            /\ trace_name t = field d Prioridad cells
            /\ In (bar_of_record d cells) (bars t).
Proof.
  intros s r d k Hr Hd Hk Htext.
  destruct (chart_structure s r d k Hr Hd Hk)
    as [fig [s' [a [v [pE [pS [pF [pR [pT [pP
         [Hfig [_ [_ [Hpos [_ [Hdata [Htr _]]]]]]]]]]]]]]]]].
  destruct Hpos as [HE [HS [HF [HR [HT HP]]]]].
  pose proof (text_view_traces d v k pE pR pS pP (prioridad_colors s)
                pF pT HE HP Hdata Htext) as Hvt.
  exists fig, s'. split; [exact Hfig|].
  intros cells Hin Hkey.
  destruct (Htext cells Hin Hkey) as [p Hp].
  rewrite (field_position d _ pE cells HE) in Hkey.
  rewrite (field_position d _ pP cells HP) in *.
  assert (Hv : In cells (data v)).
  { apply (view_member d v k pE pR pS cells Hdata). split; [exact Hin|].
    rewrite Hkey. apply value_eqb_refl. now apply truthy_not_null. }
  rewrite Htr, Hvt. eexists. split.
  - apply in_map. apply in_map_iff.
    exists (cell_at pP cells). split; [reflexivity|].
    apply unique_from_In. split; [|tauto].
    apply dropna_In. split; [|rewrite Hp; discriminate].
    apply in_map_iff. now exists cells.
  - unfold finished. cbn [trace_name bars]. split; [reflexivity|].
    apply in_map_iff. exists cells. split.
    + unfold bar_of_record, view_bar.
      now rewrite (field_position d _ pS cells HS),
        (field_position d _ pF cells HF), (field_position d _ pR cells HR),
        (field_position d _ pT cells HT).
    + apply filter_In. split; [exact Hv | now apply dec_true].
Qed.

(** X6 on the scenario table, for equipment A. *)
Lemma selected_records_have_bars_witness :
  exists fig s',
    update_gantt_chart 0 (Str "A") scenario_store = (Ok fig, s')
    /\ forall cells,
        In cells (data scenario_table) ->
        field scenario_table EQUIPO cells = Str "A" ->
        exists t,
          In t (traces fig)
          /\ trace_name t = field scenario_table Prioridad cells
          /\ In (bar_of_record scenario_table cells) (bars t).
Proof.
  apply (selected_records_have_bars scenario_store 0 scenario_table
           (Str "A")).
  - vm_compute. reflexivity.
  - vm_compute. reflexivity.
  - reflexivity.
  - intros cells [<-|[<-|[]]] _; eexists; vm_compute; reflexivity.
Defined.

(** X7: in the figure the callback returns for an Activity Table and a
    key that passes the truth test, every trace has its text inside the
    bars and the hover template of line 93, and every trace carries as
    custom data the end and the priority of all rows of the filtered
    view, in the order of the view, not only those of its own bars; the
    title names the key and the layout is the one of lines 89-102. *)
Theorem every_trace_carries_all_rows :
  forall (s : Store) (r : ref) (d : DataFrame) (k : value),
    frame_at s r = Some d ->
    activity_table d = true ->
    truthy k = true ->
    exists fig s' a v,
      update_gantt_chart r k s = (Ok fig, s')
      /\ filtered_view r k s = (Ok a, s')
      /\ frame_at s' a = Some v
      /\ layout fig
         = mkLayout (Some [Str "Gantt Chart para "; k; Str " (por Persona)"])
             (Some "total ascending") (Some "closest") (Some "Tiempo")
             (Some "Persona Asignada") (Some "Prioridad")
             (Some (0, 0, 50, 0)%Z)
      /\ forall t,
          In t (traces fig) ->
          textposition t = Some "inside"
          /\ hovertemplate t = Some hover_text
          /\ customdata t
             = Some (map (fun cells => [field d end_time cells;
                                        field d Prioridad cells])
                       (data v)).
Proof.
  intros s r d k Hr Hd Hk.
  destruct (chart_structure s r d k Hr Hd Hk)
    as [fig [s' [a [v [pE [pS [pF [pR [pT [pP
         [Hfig [Hrun [Ha [Hpos [_ [_ [Htr Hlay]]]]]]]]]]]]]]]]].
  destruct Hpos as [HE [HS [HF [HR [HT HP]]]]].
  exists fig, s', a, v. repeat (split; [assumption|]).
  intros t Ht. rewrite Htr in Ht.
  apply in_map_iff in Ht. destruct Ht as [t0 [<- _]].
  unfold finished. cbn [textposition hovertemplate customdata].
  split; [reflexivity|]. split; [reflexivity|].
  f_equal. apply map_ext. intros c.
  now rewrite (field_position d _ pF c HF), (field_position d _ pP c HP).
Qed.

(** X7 on the scenario table, for equipment A. *)
Lemma every_trace_carries_all_rows_witness :
  exists fig s' a v,
    update_gantt_chart 0 (Str "A") scenario_store = (Ok fig, s')
    /\ filtered_view 0 (Str "A") scenario_store = (Ok a, s')
    /\ frame_at s' a = Some v
    /\ layout fig
       = mkLayout
           (Some [Str "Gantt Chart para "; Str "A"; Str " (por Persona)"])
           (Some "total ascending") (Some "closest") (Some "Tiempo")
           (Some "Persona Asignada") (Some "Prioridad")
           (Some (0, 0, 50, 0)%Z)
    /\ forall t,
        In t (traces fig) ->
        textposition t = Some "inside"
        /\ hovertemplate t = Some hover_text
        /\ customdata t
           = Some (map (fun cells => [field scenario_table end_time cells;
                                      field scenario_table Prioridad cells])
                     (data v)).
Proof.
  apply (every_trace_carries_all_rows scenario_store 0 scenario_table
           (Str "A")).
  - vm_compute. reflexivity.
  - vm_compute. reflexivity.
  - reflexivity.
Defined.

(** X8: the outcome of a selection does not depend on the selections
    made before it: after any run of selection events the callback
    answers a key with the figure, or the error, it would have answered
    at the start. *)
Theorem selection_ignores_history :
  forall (s : Store) (r : ref) (d : DataFrame) (keys : list value)
         (k : value),
    frame_at s r = Some d ->
    fst (update_gantt_chart r k (snd (selection_events r keys s)))
    = fst (update_gantt_chart r k s).
Proof.
  intros s r d keys k Hr.
  pose proof (selection_events_extends r keys s) as Hext.
  rewrite !update_gantt_chart_pure.
  rewrite (extends_frame_at _ _ r d Hext Hr), Hr.
  now rewrite (extends_colors _ _ Hext).
Qed.

(** X8 on the scenario table. *)
Lemma selection_ignores_history_witness :
  fst (update_gantt_chart 0 (Str "A")
         (snd (selection_events 0 [Str "Z"; Null; Str "A"] scenario_store)))
  = fst (update_gantt_chart 0 (Str "A") scenario_store).
Proof.
  apply (selection_ignores_history scenario_store 0 scenario_table
           [Str "Z"; Null; Str "A"] (Str "A")).
  vm_compute. reflexivity.
Defined.

(* ================================================================== *)
(** ** The callback on tables that lack or repeat a label *)

Section CallbackErrors.

Lemma rename_to_resource (c : string) :
  rename_label presentation_names c = "Resource" ->
  c = PERSONA \/ c = "Resource".
Proof.
  rewrite (rename_label_cases c).
  destruct (String.eqb_spec ACTIVIDAD c); [discriminate|].
  destruct (String.eqb_spec start_time c); [discriminate|].
  destruct (String.eqb_spec end_time c); [discriminate|].
  destruct (String.eqb_spec PERSONA c); auto.
Qed.

Lemma position_none (l : string) (labels : list string) :
  position l labels = None <-> ~ In l labels.
Proof.
  induction labels as [|c rest IH]; simpl; [tauto|].
  destruct (String.eqb_spec c l) as [->|Hne].
  - split; [discriminate | tauto].
  - destruct (position l rest) as [n|] eqn:E; simpl.
    + split; [discriminate|]. intros H. exfalso. apply H. right.
      apply (nth_error_In rest n). now apply position_nth_error.
    + split; [|reflexivity]. intros _ [H|H]; [contradiction|].
      now apply IH.
Qed.

Lemma no_resource_after_rename (labels : list string) :
  position PERSONA labels = None -> position "Resource" labels = None ->
  position "Resource" (map (rename_label presentation_names) labels) = None.
Proof.
  rewrite !position_none. intros H1 H2 Hin.
  apply in_map_iff in Hin. destruct Hin as [c [Hc Hin]].
  destruct (rename_to_resource c Hc) as [->| ->]; contradiction.
Qed.

Lemma filter_two {A : Type} (p : A -> bool) (a b : A) (l : list A) :
  In a l -> In b l -> a <> b -> p a = true -> p b = true ->
  2 <= List.length (filter p l).
Proof.
  intros Ha Hb Hne Hpa Hpb.
  assert (Hin : forall x, In x [a; b] -> In x (filter p l)).
  { intros x [<-|[<-|[]]]; apply filter_In; auto. }
  assert (Hnd : NoDup [a; b]).
  { constructor; [simpl; intuition congruence|].
    constructor; [simpl; tauto | constructor]. }
  apply (NoDup_incl_length Hnd Hin).
Qed.

Lemma resource_twice_after_rename (labels : list string) :
  In PERSONA labels -> In "Resource" labels ->
  Nat.ltb 1 (count_label "Resource"
               (map (rename_label presentation_names) labels)) = true.
Proof.
  intros H1 H2. apply Nat.ltb_lt. unfold count_label.
  rewrite filter_map_swap, length_map.
  apply (filter_two _ PERSONA "Resource"); auto; discriminate.
Qed.

End CallbackErrors.

(** X9: when the table has no equipment column the callback, called with
    a key that passes the truth test, ends with [KeyError] for EQUIPO at
    the comparison of line 65; when it has an equipment column but
    neither the person column nor a column named Resource, it ends with
    [KeyError] for Resource at the sort of line 76.  The table is left as
    it was. *)
Theorem callback_fails_on_missing_column :
  forall (s : Store) (r : ref) (d : DataFrame) (k : value) (l : string),
    frame_at s r = Some d ->
    truthy k = true ->
    (l = EQUIPO /\ position EQUIPO (columns d) = None)
    \/ (l = "Resource"
        /\ position EQUIPO (columns d) <> None
        /\ position PERSONA (columns d) = None
        /\ position "Resource" (columns d) = None) ->
    fst (update_gantt_chart r k s) = Raise (KeyError l)
    /\ frame_at (snd (update_gantt_chart r k s)) r = Some d.
Proof.
  intros s r d k l Hr Hk H. split.
  - rewrite update_gantt_chart_pure, Hr. unfold figure_of, view_of.
    rewrite Hk. cbn [negb].
    destruct H as [[-> H]|[-> [HE [HP HR]]]].
    + now rewrite (getitem_missing d EQUIPO H).
    + unfold getitem.
      destruct (position EQUIPO (columns d)); [|contradiction].
      cbn [rbind]. unfold sort_values, key_positions, key_position.
      cbn [columns rename getitem_mask].
      now rewrite (no_resource_after_rename (columns d) HP HR).
  - eapply extends_frame_at;
      [apply allocates_only_update_gantt_chart | exact Hr].
Qed.

(** X9 on the frame start-up puts in place of a missing file. *)
Lemma callback_fails_on_missing_column_witness :
  fst (update_gantt_chart 0 (Str "A")
         (mkStore [empty_frame] prioridad_colors_literal []))
  = Raise (KeyError EQUIPO)
  /\ frame_at (snd (update_gantt_chart 0 (Str "A")
                      (mkStore [empty_frame] prioridad_colors_literal [])))
       0 = Some empty_frame.
Proof.
  apply (callback_fails_on_missing_column
           (mkStore [empty_frame] prioridad_colors_literal []) 0
           empty_frame (Str "A") EQUIPO).
  - reflexivity.
  - reflexivity.
  - left. split; reflexivity.
Defined.

(** X10: when the table has an equipment column, the person column and
    also a column already named Resource, the renaming of lines 68-73
    leaves two columns named Resource and the callback, called with a key
    that passes the truth test, ends with [ValueError] at the sort of
    line 76. *)
Theorem callback_fails_on_repeated_label :
  forall (s : Store) (r : ref) (d : DataFrame) (k : value),
    frame_at s r = Some d ->
    truthy k = true ->
    position EQUIPO (columns d) <> None ->
    In PERSONA (columns d) ->
    In "Resource" (columns d) ->
    fst (update_gantt_chart r k s) = Raise ValueError.
Proof.
  intros s r d k Hr Hk HE HP HR.
  rewrite update_gantt_chart_pure, Hr. unfold figure_of, view_of.
  rewrite Hk. cbn [negb]. unfold getitem.
  destruct (position EQUIPO (columns d)); [|contradiction].
  cbn [rbind]. unfold sort_values, key_positions, key_position.
  cbn [columns rename getitem_mask].
  destruct (position_In "Resource"
              (map (rename_label presentation_names) (columns d)))
    as [p Hp].
  { apply in_map_iff. exists PERSONA. split; [reflexivity | exact HP]. }
  now rewrite Hp, (resource_twice_after_rename (columns d) HP HR).
Qed.

(** X10 on a table with the six columns of the file and a seventh named
    Resource. *)
Lemma callback_fails_on_repeated_label_witness :
  fst (update_gantt_chart 0 (Str "A")
         (mkStore
            [mkDataFrame (source_columns ++ ["Resource"])
               [(0, [Str "A"; Str "Inspect"; Str "Bob"; Str "ALTA";
                     Timestamp 0; Timestamp 1; Str "crane"])]]
            prioridad_colors_literal []))
  = Raise ValueError.
Proof.
  apply (callback_fails_on_repeated_label
           (mkStore
              [mkDataFrame (source_columns ++ ["Resource"])
                 [(0, [Str "A"; Str "Inspect"; Str "Bob"; Str "ALTA";
                       Timestamp 0; Timestamp 1; Str "crane"])]]
              prioridad_colors_literal []) 0
           (mkDataFrame (source_columns ++ ["Resource"])
              [(0, [Str "A"; Str "Inspect"; Str "Bob"; Str "ALTA";
                    Timestamp 0; Timestamp 1; Str "crane"])])
           (Str "A")).
  - reflexivity.
  - reflexivity.
  - vm_compute. discriminate.
  - vm_compute. tauto.
  - vm_compute. tauto.
Defined.

(* ================================================================== *)
(** ** The dropdown and the callback together *)

Section OptionsAndViews.

(** The number of rows of the view is the number of cells of the
    equipment column that equal the key. *)
Lemma view_length (s : Store) (r : ref) (d : DataFrame) (col : list value)
      (k : value) :
  frame_at s r = Some d -> activity_table d = true -> truthy k = true ->
  getitem d EQUIPO = Ok col ->
  exists a s' v,
    filtered_view r k s = (Ok a, s')
    /\ frame_at s' a = Some v
    /\ List.length (rows v) = count_occ value_eq_dec col k.
Proof.
  intros Hr Hd Hk Hcol.
  destruct (view_rows s r d k Hr Hd Hk)
    as [pE [pR [pS [a [s' [v [HE [_ [_ [Hrun [Ha [_ Hdata]]]]]]]]]]]].
  exists a, s', v. split; [exact Hrun|]. split; [exact Ha|].
  unfold getitem in Hcol. rewrite HE in Hcol. injection Hcol as <-.
  transitivity (List.length (data v)); [symmetry; apply length_map|].
  rewrite Hdata, (Permutation_length (stable_sort_perm _ _)).
  rewrite <- (map_map snd (cell_at pE)), count_occ_map_filter.
  fold (data d). f_equal. apply filter_ext. intros c.
  apply value_eqb_dec. now apply truthy_not_null.
Qed.

Lemma offered_options (s s1 : Store) (r : ref) (d : DataFrame)
      (col : list value) (dash : Dashboard) :
  frame_at s r = Some d -> getitem d EQUIPO = Ok col ->
  make_layout r s = (Ok dash, s1) ->
  dropdown_options dash = map (fun e => (e, e)) (unique (dropna col)).
Proof.
  intros Hr Hcol Hrun.
  rewrite (make_layout_run s r d Hr), Hcol in Hrun.
  injection Hrun as <- _. reflexivity.
Qed.

Lemma offered_iff (col : list value) (k : value) :
  In (k, k) (map (fun e => (e, e)) (unique (dropna col)))
  <-> In k col /\ k <> Null.
Proof.
  rewrite in_map_iff. unfold unique. split.
  - intros [e [[= -> _] He]].
    apply unique_from_In in He. now apply dropna_In.
  - intros H. exists k. split; [reflexivity|].
    apply unique_from_In. split; [now apply dropna_In | tauto].
Qed.

End OptionsAndViews.

(** X11: every option the dropdown offers for an Activity Table that
    passes the truth test has something to show: selecting it gives a
    view with at least one row, as many rows as the equipment column has
    cells equal to the option. *)
Theorem offered_option_has_rows :
  forall (s s1 : Store) (r : ref) (d : DataFrame) (col : list value)
         (dash : Dashboard) (k : value),
    frame_at s r = Some d ->
    activity_table d = true ->
    getitem d EQUIPO = Ok col ->
    make_layout r s = (Ok dash, s1) ->
    In (k, k) (dropdown_options dash) ->
    truthy k = true ->
    exists a s' v,
      filtered_view r k s = (Ok a, s')
      /\ frame_at s' a = Some v
      /\ List.length (rows v) = count_occ value_eq_dec col k
      /\ 0 < List.length (rows v).
Proof.
  intros s s1 r d col dash k Hr Hd Hcol Hlay Hopt Hk.
  rewrite (offered_options s s1 r d col dash Hr Hcol Hlay) in Hopt.
  apply offered_iff in Hopt. destruct Hopt as [Hin _].
  destruct (view_length s r d col k Hr Hd Hk Hcol)
    as [a [s' [v [Hrun [Ha Hlen]]]]].
  exists a, s', v. repeat (split; [assumption|]).
  rewrite Hlen. now apply (count_occ_In value_eq_dec).
Qed.

(** X11 on the scenario table, for its one option. *)
Lemma offered_option_has_rows_witness :
  exists a s' v,
    filtered_view 0 (Str "A") scenario_store = (Ok a, s')
    /\ frame_at s' a = Some v
    /\ List.length (rows v)
       = count_occ value_eq_dec [Str "A"; Str "A"] (Str "A")
    /\ 0 < List.length (rows v).
Proof.
  apply (offered_option_has_rows scenario_store scenario_store 0
           scenario_table [Str "A"; Str "A"]
           (mkDashboard 0 [Str "A"] [(Str "A", Str "A")] (Str "A"))
           (Str "A")).
  - vm_compute. reflexivity.
  - vm_compute. reflexivity.
  - reflexivity.
  - vm_compute. reflexivity.
  - left. reflexivity.
  - reflexivity.
Defined.

(** X12: the dropdown does not leave out an identifier that fails the
    truth test: a cell of the equipment column that is not missing but
    is zero (or the empty string) is offered as an option, and the
    callback answers its selection as it answers an empty selection,
    whatever rows bear it. *)
Theorem falsy_identifier_is_offered :
  forall (s : Store) (r : ref) (d : DataFrame) (col : list value)
         (k : value),
    frame_at s r = Some d ->
    getitem d EQUIPO = Ok col ->
    In k col ->
    k <> Null ->
    truthy k = false ->
    exists dash,
      make_layout r s = (Ok dash, s)
      /\ In (k, k) (dropdown_options dash)
      /\ update_gantt_chart r k s = update_gantt_chart r Null s.
Proof.
  intros s r d col k Hr Hcol Hin Hnn Hk.
  eexists. split.
  - rewrite (make_layout_run s r d Hr), Hcol. reflexivity.
  - cbn [dropdown_options]. split; [now apply offered_iff|].
    now rewrite !update_gantt_chart_falsy.
Qed.

(** X12 on the table with numbered equipment, for the identifier 0. *)
Lemma falsy_identifier_is_offered_witness :
  exists dash,
    make_layout 0 numbered_store = (Ok dash, numbered_store)
    /\ In (Int 0, Int 0) (dropdown_options dash)
    /\ update_gantt_chart 0 (Int 0) numbered_store
       = update_gantt_chart 0 Null numbered_store.
Proof.
  eapply (falsy_identifier_is_offered numbered_store 0 _ [Int 0; Int 1]
            (Int 0)).
  - vm_compute. reflexivity.
  - vm_compute. reflexivity.
  - left. reflexivity.
  - discriminate.
  - reflexivity.
Defined.

(* ================================================================== *)
(** ** The shape of the filtered view *)

Section ViewShape.

Lemma map_fst_combine {A B : Type} (a : list A) (b : list B) :
  List.length a = List.length b -> map fst (combine a b) = a.
Proof.
  revert b. induction a as [|x a IH]; intros [|y b]; simpl;
    try discriminate; [reflexivity|].
  intros H. f_equal. apply IH. now injection H.
Qed.

Lemma combine_seq_labels {B : Type} (n : nat) (l : list B) :
  n = List.length l ->
  map fst (combine (seq 0 n) l) = seq 0 (List.length (combine (seq 0 n) l)).
Proof.
  intros ->.
  rewrite length_combine, length_seq, Nat.min_id.
  apply map_fst_combine. apply length_seq.
Qed.

Lemma reset_index_drop_labels (d : DataFrame) :
  map fst (rows (reset_index_drop d))
  = seq 0 (List.length (rows (reset_index_drop d))).
Proof.
  unfold reset_index_drop. cbn [rows].
  apply (combine_seq_labels (List.length (rows d)) (map snd (rows d))).
  symmetry. apply length_map.
Qed.

Lemma view_of_labels (d v : DataFrame) (k : value) :
  view_of d k = Ok v ->
  map fst (rows v) = seq 0 (List.length (rows v)).
Proof.
  unfold view_of. destruct (negb (truthy k)).
  - now intros [= <-].
  - destruct (getitem d EQUIPO) as [col|]; [|discriminate]. cbn [rbind].
    destruct (sort_values _ _) as [sorted|]; [|discriminate]. cbn [rbind].
    intros [= <-]. apply reset_index_drop_labels.
Qed.

(** A column the renaming does not mention stays where it is, under its
    label. *)
Lemma kept_position (d : DataFrame) (l : string) :
  activity_table d = true -> In l (columns d) ->
  ~ In l (map fst presentation_names) ->
  position l (map (rename_label presentation_names) (columns d))
  = position l (columns d).
Proof.
  intros Hd Hl Hkept.
  destruct (activity_table_facts d Hd) as [_ [_ Hn]].
  rewrite <- (rename_label_kept l Hkept) at 1.
  apply position_map. intros c Hc He.
  rewrite (rename_label_kept l Hkept) in He.
  destruct (rename_label_presentation c) as [Hp|Hp].
  - rewrite He in Hp. now contradiction (Hn l Hl).
  - congruence.
Qed.

End ViewShape.

(** X13: for an Activity Table and a key that passes the truth test the
    filtered view has the columns of the table, none dropped and none
    moved, the four of lines 68-73 under their new names and every other
    one, EQUIPO and Prioridad among them, under its own label with its
    own cells; its rows are labelled 0, 1, 2, ... whatever labels the
    selected rows had in the table; and it is rectangular when the table
    is. *)
Theorem view_keeps_columns_and_renumbers_rows :
  forall (s : Store) (r : ref) (d : DataFrame) (k : value),
    frame_at s r = Some d ->
    activity_table d = true ->
    truthy k = true ->
    exists a s' v,
      filtered_view r k s = (Ok a, s')
      /\ frame_at s' a = Some v
      /\ columns v = map (rename_label presentation_names) (columns d)
      /\ map fst (rows v) = seq 0 (List.length (rows v))
      /\ (rectangular d = true -> rectangular v = true)
      /\ forall l,
          In l (columns d) ->
          ~ In l (map fst presentation_names) ->
          position l (columns v) = position l (columns d)
          /\ forall cells, field v l cells = field d l cells.
Proof.
  intros s r d k Hr Hd Hk.
  destruct (update_gantt_chart_truthy s r d k Hr Hd Hk)
    as [_ [s' [a [v [_ [Hrun [Ha [Hv _]]]]]]]].
  destruct (view_of_truthy d k Hd Hk)
    as [pE [pR [pS [v' [_ [_ [_ [Hv' [Hc Hdata]]]]]]]]].
  assert (v' = v) by congruence. subst v'.
  exists a, s', v.
  split; [exact Hrun|]. split; [exact Ha|]. split; [exact Hc|].
  split; [exact (view_of_labels d v k Hv)|]. split.
  - intros Hrect. unfold rectangular. apply forallb_forall.
    intros row Hrow. apply Nat.eqb_eq.
    assert (Hin : In (snd row) (data v)) by (apply in_map; exact Hrow).
    apply (view_member d v k pE pR pS _ Hdata) in Hin.
    destruct Hin as [Hin _]. apply in_map_iff in Hin.
    destruct Hin as [row' [Hsnd Hrow']].
    rewrite <- Hsnd, Hc, length_map.
    now apply rectangular_rows.
  - intros l Hl Hkept.
    assert (Hp : position l (columns v) = position l (columns d)).
    { rewrite Hc. now apply kept_position. }
    split; [exact Hp|]. intros cells. unfold field. now rewrite Hp.
Qed.

(** X13 on the scenario table, for equipment A. *)
Lemma view_keeps_columns_and_renumbers_rows_witness :
  exists a s' v,
    filtered_view 0 (Str "A") scenario_store = (Ok a, s')
    /\ frame_at s' a = Some v
    /\ columns v
       = map (rename_label presentation_names) (columns scenario_table)
    /\ map fst (rows v) = seq 0 (List.length (rows v))
    /\ (rectangular scenario_table = true -> rectangular v = true)
    /\ forall l,
        In l (columns scenario_table) ->
        ~ In l (map fst presentation_names) ->
        position l (columns v) = position l (columns scenario_table)
        /\ forall cells, field v l cells = field scenario_table l cells.
Proof.
  apply (view_keeps_columns_and_renumbers_rows scenario_store 0
           scenario_table (Str "A")).
  - vm_compute. reflexivity.
  - vm_compute. reflexivity.
  - reflexivity.
Defined.

(* ================================================================== *)
(** ** The order of the bars *)

Section BarOrder.

Lemma StronglySorted_filter {A : Type} (R : A -> A -> Prop) (p : A -> bool)
      (l : list A) :
  StronglySorted R l -> StronglySorted R (filter p l).
Proof.
  induction 1 as [|x l Hs IH Hx]; simpl; [constructor|].
  destruct (p x); [|exact IH].
  constructor; [exact IH|].
  rewrite Forall_forall in *. intros y Hy.
  apply Hx. now apply filter_In in Hy.
Qed.

Lemma StronglySorted_map {A B : Type} (R : B -> B -> Prop) (f : A -> B)
      (l : list A) :
  StronglySorted (fun a b => R (f a) (f b)) l -> StronglySorted R (map f l).
Proof.
  induction 1 as [|x l Hs IH Hx]; simpl; constructor; [exact IH|].
  rewrite Forall_forall in *. intros y Hy.
  apply in_map_iff in Hy. destruct Hy as [a [<- Ha]]. now apply Hx.
Qed.

End BarOrder.

(** X14: in the figure the callback returns for an Activity Table and a
    key that passes the truth test, the bars of every trace stand in
    ascending order of the pair (person, start), missing values last: the
    order of the sort of line 76 carries over to each colour group. *)
Theorem bars_are_sorted_within_traces :
  forall (s : Store) (r : ref) (d : DataFrame) (k : value),
    frame_at s r = Some d ->
    activity_table d = true ->
    truthy k = true ->
    exists fig s',
      update_gantt_chart r k s = (Ok fig, s')
      /\ forall t,
          In t (traces fig) ->
          StronglySorted
            (fun b1 b2 => pair_le (bar_y b1, bar_start b1)
                                  (bar_y b2, bar_start b2))
            (bars t).
Proof.
  intros s r d k Hr Hd Hk.
  destruct (chart_structure s r d k Hr Hd Hk)
    as [fig [s' [a [v [pE [pS [pF [pR [pT [pP
         [Hfig [_ [_ [_ [_ [Hdata [Htr _]]]]]]]]]]]]]]]]].
  exists fig, s'. split; [exact Hfig|].
  assert (Hsorted : StronglySorted
                      (fun x y => pair_le (cell_at pR x, cell_at pS x)
                                          (cell_at pR y, cell_at pS y))
                      (data v)).
  { rewrite Hdata.
    apply (StronglySorted_impl (fun x y => lex_leb [pR; pS] x y = true)).
    - intros x y. apply lex_leb_pair.
    - apply stable_sort_sorted; [apply lex_leb_total | apply lex_leb_trans]. }
  intros t Ht. rewrite Htr in Ht.
  apply in_map_iff in Ht. destruct Ht as [t0 [<- Ht0]].
  unfold finished. cbn [bars]. unfold view_traces in Ht0.
  destruct (is_continuous (map (cell_at pP) (data v))).
  - destruct Ht0 as [<-|[]]. cbn [bars].
    apply StronglySorted_map. unfold view_bar. cbn [bar_y bar_start].
    exact Hsorted.
  - apply in_map_iff in Ht0. destruct Ht0 as [g [<- _]]. cbn [bars].
    apply StronglySorted_map. unfold view_bar. cbn [bar_y bar_start].
    now apply StronglySorted_filter.
Qed.

(** X14 on the scenario table, for equipment A. *)
Lemma bars_are_sorted_within_traces_witness :
  exists fig s',
    update_gantt_chart 0 (Str "A") scenario_store = (Ok fig, s')
    /\ forall t,
        In t (traces fig) ->
        StronglySorted
          (fun b1 b2 => pair_le (bar_y b1, bar_start b1)
                                (bar_y b2, bar_start b2))
          (bars t).
Proof.
  apply (bars_are_sorted_within_traces scenario_store 0 scenario_table
           (Str "A")).
  - vm_compute. reflexivity.
  - vm_compute. reflexivity.
  - reflexivity.
Defined.
